(** * KOSINTER: username enumeration -- model of [kosinter.py]

    A shallow embedding of the variant generator ([generate_variants]),
    the existence classifier ([check_profile]) and the scan loop
    ([check_username_single], the table-building part of [run_scan]),
    followed by the properties established about them.

    Conventions.
    - A Python [str] is a sequence of Unicode code points: [str := list N].
      [py "..."] turns an ASCII literal into such a sequence.
    - [str.lower] is the interpreter's Unicode lowering; it is a parameter
      of the classifier ([lower]).  [ascii_lower] is its restriction to
      ASCII text, used to run the model on concrete ASCII pages.
    - [requests.get] is the only effect.  It is a parameter too: an oracle
      that, given the request and the current state of the world, either
      hands back a response or fails with a [requests.RequestException]
      whose [str(e)] is recorded.
    - A Python [dict] is an insertion-ordered association list without
      repeated keys ([dict_set]). *)

From Stdlib Require Import Ascii String.
From Stdlib Require Import NArith ZArith Bool Lia List.
From Stdlib Require Import Floats.PrimFloat.
Import ListNotations.

Set Implicit Arguments.
Set Warnings "-register-all".

(* ================================================================== *)
(** * Python strings *)
(* ================================================================== *)

Definition char := N.
Definition str := list char.

Definition chr (a : ascii) : char := N_of_ascii a.

(** An ASCII literal as a Python string. *)
Definition py (s : string) : str := map chr (list_ascii_of_string s).

(** U+0022, the double quote. *)
Definition dquote : str := [34%N].
(** U+2019, the typographic apostrophe of the "doesn't exist" pages. *)
Definition rsquo : str := [8217%N].
(** U+00B7, the middle dot of the profile header line. *)
Definition middot : str := [183%N].

Fixpoint str_eqb (a b : str) : bool :=
  match a, b with
  | [], [] => true
  | x :: a', y :: b' => N.eqb x y && str_eqb a' b'
  | _, _ => false
  end.

(** [bool(s)] for a string: the empty string is falsy. *)
Definition str_truthy (s : str) : bool :=
  match s with [] => false | _ :: _ => true end.

Fixpoint startswith (s prefix : str) : bool :=
  match prefix, s with
  | [], _ => true
  | p :: prefix', c :: s' => N.eqb p c && startswith s' prefix'
  | _ :: _, [] => false
  end.

(** [needle in hay]. *)
Fixpoint contains (needle hay : str) : bool :=
  startswith hay needle ||
  match hay with
  | [] => false
  | _ :: hay' => contains needle hay'
  end.

(** [sep.join(parts)]. *)
Fixpoint join (sep : str) (parts : list str) : str :=
  match parts with
  | [] => []
  | p :: ps =>
      match ps with
      | [] => p
      | _ :: _ => p ++ sep ++ join sep ps
      end
  end.

(** [c in seen] for a collection of strings. *)
Definition str_mem (c : str) (seen : list str) : bool :=
  existsb (str_eqb c) seen.

(** ASCII lowering: [A-Z] to [a-z], every other code point unchanged.
    On a string of ASCII code points this is what [str.lower] computes. *)
Definition ascii_lower_char (c : char) : char :=
  if (N.leb 65 c && N.leb c 90)%bool then (c + 32)%N else c.

Definition ascii_lower (s : str) : str := map ascii_lower_char s.

(* ================================================================== *)
(** * Variant generator: [generate_variants] *)
(* ================================================================== *)

(** The character class [[._-]]. *)
Definition is_separator (c : char) : bool :=
  N.eqb c (chr ".") || N.eqb c (chr "_") || N.eqb c (chr "-").

(** [re.search(r"[._-]", s)] as a truth value. *)
Definition re_search_sep (s : str) : bool := existsb is_separator s.

(** [re.split(r"[._-]", s)]: the pattern matches exactly one character,
    so every separator character is a cut.  [split_sep] returns the part
    under construction and the parts after it. *)
Fixpoint split_sep (s : str) : str * list str :=
  match s with
  | [] => ([], [])
  | c :: s' =>
      let (p, ps) := split_sep s' in
      if is_separator c then ([], p :: ps) else (c :: p, ps)
  end.

Definition re_split_sep (s : str) : list str :=
  let (p, ps) := split_sep s in p :: ps.

(** The [parts] variable of [generate_variants]. *)
Definition parts (base_username : str) : list str :=
  if re_search_sep base_username then re_split_sep base_username
  else if Nat.leb 4 (length base_username) then
    let mid := Nat.div (length base_username) 2 in
    [firstn mid base_username; skipn mid base_username]
  else [base_username].

(** The [candidates] list of [generate_variants]. *)
Definition candidates (base_username : str) : list str :=
  let ps := parts base_username in
  let root := join (py "") ps in
  let dot := join (py ".") ps in
  let dash := join (py "-") ps in
  let underscore := join (py "_") ps in
  [base_username; root; dot; dash; underscore].

(** The de-duplication loop, with its two accumulators [variants] and
    [seen]. *)
Fixpoint dedup_loop (cs : list str) (variants seen : list str) : list str :=
  match cs with
  | [] => variants
  | c :: cs' =>
      if str_truthy c && negb (str_mem c seen)
      then dedup_loop cs' (variants ++ [c]) (c :: seen)
      else dedup_loop cs' variants seen
  end.

Definition generate_variants (base_username : str) : list str :=
  dedup_loop (candidates base_username) [] [].

(** ** The splitting rule as the specification words it

    "Split on the first run of separators, a contiguous run counting as a
    single split point": the text before the first separator, and the
    text after the run that starts there. *)

Fixpoint drop_separators (s : str) : str :=
  match s with
  | [] => []
  | c :: s' => if is_separator c then drop_separators s' else s
  end.

Fixpoint split_first_run_pair (s : str) : str * option str :=
  match s with
  | [] => ([], None)
  | c :: s' =>
      if is_separator c then ([], Some (drop_separators s'))
      else let (p, rest) := split_first_run_pair s' in (c :: p, rest)
  end.

Definition split_first_run (s : str) : list str :=
  match split_first_run_pair s with
  | (p, Some q) => [p; q]
  | (p, None) => [p]
  end.

(** Parts and the separators between them, put back together. *)
Fixpoint weave (ps : list str) (seps : list char) : str :=
  match ps with
  | [] => []
  | p :: ps' =>
      match seps with
      | [] => p
      | c :: seps' => p ++ c :: weave ps' seps'
      end
  end.

(* ================================================================== *)
(** * Values, responses and the probe *)
(* ================================================================== *)

(** A Python [dict], as the list of its items in insertion order. *)
Definition dict (K V : Type) := list (K * V).

Fixpoint dict_get {V : Type} (k : str) (d : dict str V) : option V :=
  match d with
  | [] => None
  | (k', v) :: d' => if str_eqb k k' then Some v else dict_get k d'
  end.

(** [d[k] = v]: the value of an existing key is replaced where it stands,
    a new key goes to the end. *)
Fixpoint dict_set {V : Type} (k : str) (v : V) (d : dict str V) : dict str V :=
  match d with
  | [] => [(k, v)]
  | (k', v') :: d' =>
      if str_eqb k k' then (k', v) :: d' else (k', v') :: dict_set k v d'
  end.

(** What [resp.json()] can hand back: the Python values [json.loads]
    builds. *)
Inductive json : Type :=
| JNone
| JBool (b : bool)
| JInt (n : Z)
| JFloat (f : float)
| JStr (s : str)
| JList (items : list json)
| JDict (items : list (str * json)).

(** [bool(v)]. *)
Definition py_truthy (v : json) : bool :=
  match v with
  | JNone => false
  | JBool b => b
  | JInt n => negb (Z.eqb n 0)
  | JFloat f => negb (PrimFloat.eqb f 0%float)
  | JStr s => str_truthy s
  | JList items => match items with [] => false | _ :: _ => true end
  | JDict items => match items with [] => false | _ :: _ => true end
  end.

(** The exceptions that occur in [check_profile]: the family raised by
    [requests] (carrying [str(e)]), the one raised by looking up the
    attribute [get] on a value that is not a [dict], and the one raised
    by the JSON decoder when the nesting of a body exceeds the recursion
    limit of the interpreter. *)
Inductive exn : Type :=
| RequestException (msg : str)
| AttributeError
| RecursionError.

Inductive result (A : Type) : Type :=
| Return (a : A)
| Raise (e : exn).

Arguments Return {A} a.
Arguments Raise {A} e.

(** [v.get(key, default)]. *)
Definition py_get (v : json) (key : str) (default : json) : result json :=
  match v with
  | JDict items =>
      Return (match dict_get key items with Some x => x | None => default end)
  | _ => Raise AttributeError
  end.

(** The request [requests.get] is called with. *)
Record Request : Type := {
  req_url : str;
  req_headers : dict str str;
  req_allow_redirects : bool;
  req_timeout : float
}.

(** The ways [resp.json()] can end: it returns the decoded value; it
    raises a [ValueError] (the [JSONDecodeError] of [requests]) because
    the body is not JSON; or the decoder, which is recursive, runs into
    the recursion limit on a deeply nested body and [RecursionError],
    which is not a [ValueError], comes out of it. *)
Inductive json_result : Type :=
| JsonValue (data : json)
| JsonValueError
| JsonRecursionError.

(** The response object, through what [check_profile] reads of it:
    [resp.status_code], [resp.text], [resp.url], and how [resp.json()]
    ends. *)
Record Response : Type := {
  resp_status_code : Z;
  resp_text : str;
  resp_url : str;
  resp_json : json_result
}.

(** The outcome of one probe: a response, or the text [str(e)] of the
    [requests.RequestException] that was raised. *)
Definition probe : Type := (Response + str)%type.

Record UsernameCheckResult : Type := {
  service : str;
  username : str;
  url : str;
  exists_ : bool;
  http_status : option Z;
  error : option str
}.

(** The three-valued verdict of the specification, read off the triple
    [(exists, status, error)] that [check_profile] returns: a positive
    answer is [Exists]; a negative answer without a note is [NotExists];
    a negative answer that carries a note is [Uncertain]. *)
Inductive Verdict : Type := Exists | NotExists | Uncertain.

Definition verdict_of (r : bool * option Z * option str) : Verdict :=
  match r with
  | (true, _, _) => Exists
  | (false, _, None) => NotExists
  | (false, _, Some _) => Uncertain
  end.

Definition user_agent : str :=
  py "Mozilla/5.0 (Windows NT 10.0; Win64; x64) " ++
  py "AppleWebKit/537.36 (KHTML, like Gecko) " ++
  py "Chrome/120.0 Safari/537.36".

(** [SERVICES], in definition order. *)
Definition SERVICES : dict str str := [
  (py "instagram", py "https://www.instagram.com/{username}/");
  (py "facebook", py "https://www.facebook.com/{username}");
  (py "twitter", py "https://twitter.com/{username}");
  (py "github", py "https://github.com/{username}");
  (py "github_gist", py "https://gist.github.com/{username}");
  (py "gitlab", py "https://gitlab.com/{username}");
  (py "reddit", py "https://www.reddit.com/user/{username}");
  (py "tiktok", py "https://www.tiktok.com/@{username}");
  (py "youtube", py "https://www.youtube.com/@{username}");
  (py "snapchat", py "https://www.snapchat.com/add/{username}")
].

(** [template.format(username=...)] for templates whose only braces are
    those of the field [{username}], as in [SERVICES].  [skip] counts the
    characters of a field still to be passed over. *)
Fixpoint format_from (skip : nat) (template username : str) : str :=
  match template with
  | [] => []
  | c :: template' =>
      match skip with
      | S k => format_from k template' username
      | O =>
          if startswith template (py "{username}")
          then username ++ format_from 9 template' username
          else c :: format_from 0 template' username
      end
  end.

Definition format_username (template username : str) : str :=
  format_from 0 template username.

(** Markers of the Twitter branch. *)
Definition not_exist_texts : list str := [
  py "hmm...this page doesn" ++ rsquo ++
    py "t exist. try searching for something else.";
  py "hmm...this page doesn't exist. try searching for something else."
].

Definition not_exist_span : str :=
  py "<span class=" ++ dquote ++
  py "css-1jxf684 r-bcqeeo r-1ttztb7 r-qvutc0 r-poiln3" ++ dquote ++ py ">" ++
  py "Hmm...this page doesn" ++ rsquo ++
  py "t exist. Try searching for something else." ++
  py "</span>".

Definition positive_markers (handle : str) : list str := [
  py "(@" ++ handle ++ py ") / x";
  py "(@" ++ handle ++ py ") / twitter";
  dquote ++ py "screen_name" ++ dquote ++ py ":" ++ dquote ++ handle ++ dquote;
  dquote ++ py "screen_name" ++ dquote ++ py ": " ++ dquote ++ handle ++ dquote;
  py "@" ++ handle ++ py " " ++ middot
].

(* ================================================================== *)
(** * Existence classifier and scan *)
(* ================================================================== *)

(** A computation that reads and changes the world and may raise. *)
Definition M (World A : Type) : Type := World -> result A * World.

Definition ret {World A : Type} (a : A) : M World A :=
  fun w => (Return a, w).

Definition bind {World A B : Type} (c : M World A) (k : A -> M World B)
  : M World B :=
  fun w =>
    match c w with
    | (Return a, w') => k a w'
    | (Raise e, w') => (Raise e, w')
    end.

(** A pure step that may raise. *)
Definition lift {World A : Type} (r : result A) : M World A :=
  fun w => (r, w).

(** [try: body  except requests.RequestException as e: handler(str(e))].
    Any other exception passes through. *)
Definition try_except_RequestException {World A : Type}
  (body : M World A) (handler : str -> M World A) : M World A :=
  fun w =>
    match body w with
    | (Raise (RequestException msg), w') => handler msg w'
    | other => other
    end.

Declare Scope py_scope.
Delimit Scope py_scope with py.
Notation "x <- c ;; k" := (bind c (fun x => k))
  (at level 61, c at next level, right associativity) : py_scope.
Notation "' pat <- c ;; k" :=
  (bind c (fun x => match x with pat => k end))
  (at level 61, pat pattern, c at next level, right associativity) : py_scope.

Section Classifier.

(** [str.lower]. *)
Variable lower : str -> str.

(** The world outside the program, and [requests.get] acting on it. *)
Variable World : Type.
Variable requests_get : Request -> World -> probe * World.

Local Open Scope py_scope.

Definition http_get (req : Request) : M World Response :=
  fun w =>
    match requests_get req w with
    | (inl resp, w') => (Return resp, w')
    | (inr msg, w') => (Raise (RequestException msg), w')
    end.

Definition check_profile (service username url : str) (timeout : float)
  : M World (bool * option Z * option str) :=
  let uname := lower username in
  (* INSTAGRAM - JSON API (authoritative) *)
  if str_eqb service (py "instagram") then
    let api_url :=
      py "https://i.instagram.com/api/v1/users/web_profile_info/" ++
      py "?username=" ++ username in
    let ig_headers := [
      (py "User-Agent", user_agent);
      (py "X-IG-App-ID", py "936619743392459")
    ] in
    try_except_RequestException
      (resp <- http_get {| req_url := api_url; req_headers := ig_headers;
                           req_allow_redirects := true;
                           req_timeout := timeout |} ;;
       let status := resp_status_code resp in
       if Z.eqb status 200 then
         match resp_json resp with
         | JsonValueError =>
             (* except ValueError *)
             ret (false, Some status, Some (py "invalid_json"))
         | JsonRecursionError =>
             (* not a ValueError: no handler of this function catches it *)
             lift (Raise RecursionError)
         | JsonValue data =>
             inner <- lift (py_get data (py "data") (JDict [])) ;;
             user_obj <- lift (py_get inner (py "user") JNone) ;;
             ret ((if py_truthy user_obj then true else false),
                  Some status, None)
         end
       else if Z.eqb status 404 then ret (false, Some status, None)
       else ret (false, Some status, Some (py "uncertain")))
      (fun e => ret (false, None, Some e))
  (* TWITTER / X - HTML inspection (conservative) *)
  else if str_eqb service (py "twitter") then
    let headers := [
      (py "User-Agent", user_agent);
      (py "Accept-Language", py "en-US,en;q=0.9")
    ] in
    try_except_RequestException
      (resp <- http_get {| req_url := url; req_headers := headers;
                           req_allow_redirects := true;
                           req_timeout := timeout |} ;;
       let status := resp_status_code resp in
       let html := resp_text resp in
       let html_lower := lower html in
       let final_url := lower (resp_url resp) in
       (* 1) explicit "page doesn't exist" markers *)
       if contains not_exist_span html then ret (false, Some status, None)
       else if existsb (fun t => contains t html_lower) not_exist_texts
       then ret (false, Some status, None)
       (* 2) HTTP 404 *)
       else if Z.eqb status 404 then ret (false, Some status, None)
       (* 3) suspended accounts (URL or text) *)
       else if contains (py "account suspended") html_lower
               || contains (py "/account/suspended") final_url
       then ret (true, Some status, None)
       (* 4) positive markers *)
       else
         let handle := uname in
         if existsb (fun m => contains m html_lower) (positive_markers handle)
         then ret (true, Some status, None)
         (* 5) none of the above *)
         else ret (false, Some status, Some (py "uncertain")))
      (fun e => ret (false, None, Some e))
  (* OTHER SERVICES - HTML / status heuristics *)
  else
    let headers := [ (py "User-Agent", user_agent) ] in
    try_except_RequestException
      (resp <- http_get {| req_url := url; req_headers := headers;
                           req_allow_redirects := true;
                           req_timeout := timeout |} ;;
       let status := resp_status_code resp in
       let text_lower := lower (resp_text resp) in
       if str_eqb service (py "facebook") then
         if Z.eqb status 200 then ret (true, Some status, None)
         else if Z.eqb status 404 then ret (false, Some status, None)
         else ret (false, Some status, Some (py "uncertain"))
       else if str_eqb service (py "reddit") then
         if contains (py "sorry, nobody on reddit goes by that name") text_lower
            || contains (py "page not found") text_lower
         then ret (false, Some status, None)
         else if Z.eqb status 200 then ret (true, Some status, None)
         else if Z.eqb status 404 then ret (false, Some status, None)
         else ret (false, Some status, Some (py "uncertain"))
       else if str_eqb service (py "tiktok") then
         if contains (py "couldn't find this account") text_lower
            || contains (py "couldn" ++ rsquo ++ py "t find this account")
                        text_lower
            || contains (py "account not found") text_lower
            || contains (py "this account could not be found") text_lower
         then ret (false, Some status, None)
         else if Z.eqb status 200 then ret (true, Some status, None)
         else if Z.eqb status 404 then ret (false, Some status, None)
         else ret (false, Some status, Some (py "uncertain"))
       else
         if Z.eqb status 200 then ret (true, Some status, None)
         else if Z.eqb status 404 then ret (false, Some status, None)
         else ret (false, Some status, Some (py "uncertain")))
      (fun e => ret (false, None, Some e)).

(** The loop of [check_username_single] over [SERVICES.items()], with the
    [results] dict as accumulator. *)
Fixpoint check_services (items : dict str str) (username : str)
  (results : dict str UsernameCheckResult)
  : M World (dict str UsernameCheckResult) :=
  match items with
  | [] => ret results
  | (service, template) :: items' =>
      let url := format_username template username in
      ' (exists_, status, error) <-
        check_profile service username url 8%float ;;
      check_services items' username
        (dict_set service
           {| service := service; username := username; url := url;
              exists_ := exists_; http_status := status; error := error |}
           results)
  end.

Definition check_username_single (username : str)
  : M World (dict str UsernameCheckResult) :=
  check_services SERVICES username [].

Definition ResultTable : Type := dict str (dict str UsernameCheckResult).

(** The loop of [run_scan] over [variants], with [all_results] as
    accumulator. *)
Fixpoint scan_variants (variants : list str) (all_results : ResultTable)
  : M World ResultTable :=
  match variants with
  | [] => ret all_results
  | v :: variants' =>
      r <- check_username_single v ;;
      scan_variants variants' (dict_set v r all_results)
  end.

(** [run_scan] from the stripped input line to the table handed to
    [print_results]; [None] when no username was entered.  Prompting and
    printing are left out. *)
Definition run_scan_table (base_username : str) : M World (option ResultTable) :=
  if negb (str_truthy base_username) then ret None
  else
    let variants := generate_variants base_username in
    all_results <- scan_variants variants [] ;;
    ret (Some all_results).

End Classifier.

(* ================================================================== *)
(** * Notions used to state the properties *)
(* ================================================================== *)

(** The one request [check_profile] sends, by branch. *)
Definition probe_request (service username url : str) (timeout : float)
  : Request :=
  if str_eqb service (py "instagram") then
    {| req_url :=
         py "https://i.instagram.com/api/v1/users/web_profile_info/" ++
         py "?username=" ++ username;
       req_headers := [ (py "User-Agent", user_agent);
                        (py "X-IG-App-ID", py "936619743392459") ];
       req_allow_redirects := true;
       req_timeout := timeout |}
  else if str_eqb service (py "twitter") then
    {| req_url := url;
       req_headers := [ (py "User-Agent", user_agent);
                        (py "Accept-Language", py "en-US,en;q=0.9") ];
       req_allow_redirects := true;
       req_timeout := timeout |}
  else
    {| req_url := url;
       req_headers := [ (py "User-Agent", user_agent) ];
       req_allow_redirects := true;
       req_timeout := timeout |}.

(** The negative ("not found") markers each platform defines, matched
    against a response.  Only Twitter, Reddit and TikTok define any. *)
Definition negative_marker_matches (lower : str -> str) (service : str)
  (resp : Response) : bool :=
  let text_lower := lower (resp_text resp) in
  if str_eqb service (py "twitter") then
    contains not_exist_span (resp_text resp)
    || existsb (fun t => contains t text_lower) not_exist_texts
  else if str_eqb service (py "reddit") then
    contains (py "sorry, nobody on reddit goes by that name") text_lower
    || contains (py "page not found") text_lower
  else if str_eqb service (py "tiktok") then
    contains (py "couldn't find this account") text_lower
    || contains (py "couldn" ++ rsquo ++ py "t find this account") text_lower
    || contains (py "account not found") text_lower
    || contains (py "this account could not be found") text_lower
  else false.


(** The (variant, platform) keys of a result table, and the check
    results stored in it, both in table order. *)
Definition table_keys (t : ResultTable) : list (str * str) :=
  flat_map (fun row => map (fun cell => (fst row, fst cell)) (snd row)) t.

Definition table_results (t : ResultTable) : list UsernameCheckResult :=
  flat_map (fun row => map snd (snd row)) t.

Definition table_get (t : ResultTable) (variant platform : str)
  : option UsernameCheckResult :=
  match dict_get variant t with
  | Some row => dict_get platform row
  | None => None
  end.

(** A cell of a row is well-formed for a variant when the check result
    it holds names the platform of its key and that variant. *)
Definition cell_for (variant : str) (cell : str * UsernameCheckResult) : Prop :=
  service (snd cell) = fst cell /\ username (snd cell) = variant.

Definition row_for (row : str * dict str UsernameCheckResult) : Prop :=
  map fst (snd row) = map fst SERVICES /\ Forall (cell_for (fst row)) (snd row).

(** Distinctness of a list of strings, decided. *)
Fixpoint distinctb (l : list str) : bool :=
  match l with
  | [] => true
  | x :: l' => negb (str_mem x l') && distinctb l'
  end.

(** ** Recorded worlds, for replaying the classifier *)

(** Every request meets the same recorded outcome. *)
Definition replay (p : probe) : Request -> unit -> probe * unit :=
  fun _ w => (p, w).

(** The classifier run on a recorded probe outcome. *)
Definition classify_recorded (lower : str -> str) (service username : str) (p : probe)
  : result (bool * option Z * option str) :=
  fst (check_profile lower (replay p) service username [] 0%float tt).

(** A world that counts the requests it has served: GitHub answers 200,
    Reddit answers 404 with its "not found" page, every other host times
    out. *)
Definition scripted (req : Request) (served : nat) : probe * nat :=
  (if contains (py "github.com") (req_url req) then
     inl {| resp_status_code := 200; resp_text := py "<html>profile</html>";
            resp_url := req_url req; resp_json := JsonValueError |}
   else if contains (py "reddit.com") (req_url req) then
     inl {| resp_status_code := 404; resp_text := py "Page Not Found";
            resp_url := req_url req; resp_json := JsonValueError |}
   else inr (py "Read timed out. (read timeout=8.0)"),
   S served).

(** Recorded responses. *)
Definition ghost_response : Response :=
  {| resp_status_code := 200;
     resp_text := py "{" ++ dquote ++ py "data" ++ dquote ++ py ":{" ++
                  dquote ++ py "user" ++ dquote ++ py ":null}}";
     resp_url := py "https://i.instagram.com/api/v1/users/web_profile_info/?username=ghost";
     resp_json := JsonValue (JDict [(py "data", JDict [(py "user", JNone)])]) |}.

Definition null_data_response : Response :=
  {| resp_status_code := 200;
     resp_text := py "{" ++ dquote ++ py "data" ++ dquote ++ py ":null}";
     resp_url := py "https://i.instagram.com/api/v1/users/web_profile_info/?username=ghost";
     resp_json := JsonValue (JDict [(py "data", JNone)]) |}.

Definition html_error_response : Response :=
  {| resp_status_code := 200;
     resp_text := py "<html>Please wait a few minutes</html>";
     resp_url := py "https://i.instagram.com/api/v1/users/web_profile_info/?username=ghost";
     resp_json := JsonValueError |}.

Definition suspended_response : Response :=
  {| resp_status_code := 200;
     resp_text := py "<html><h1>Account Suspended</h1></html>";
     resp_url := py "https://twitter.com/ghost";
     resp_json := JsonValueError |}.

Definition missing_and_suspended_response : Response :=
  {| resp_status_code := 200;
     resp_text :=
       py "Hmm...this page doesn't exist. Try searching for something else. " ++
       py "Account suspended";
     resp_url := py "https://twitter.com/ghost";
     resp_json := JsonValueError |}.


(* ================================================================== *)
(** * Further notions: generator, classifier, scan *)
(* ================================================================== *)

(** A handle with its separator characters taken out. *)
Definition strip_separators (s : str) : str :=
  filter (fun c => negb (is_separator c)) s.


(** The JSON values on which the Instagram branch fails: a value that is
    not a dict, or a dict whose ["data"] entry is present and is not a
    dict. *)
Definition bad_shape (data : json) : bool :=
  match data with
  | JDict items =>
      match dict_get (py "data") items with
      | None => false
      | Some (JDict _) => false
      | Some _ => true
      end
  | _ => true
  end.

(** The ["user"] entry the Instagram branch looks at, for a value of
    good shape: [data.get("data", {}).get("user")]. *)
Definition user_entry (data : json) : json :=
  match data with
  | JDict items =>
      match dict_get (py "data") items with
      | Some (JDict inner) =>
          match dict_get (py "user") inner with
          | Some u => u
          | None => JNone
          end
      | _ => JNone
      end
  | _ => JNone
  end.

(** The endings of [resp.json()] that the Instagram branch survives: a
    value of good shape, or a [ValueError]. *)
Definition well_decoded (r : json_result) : bool :=
  match r with
  | JsonValue data => negb (bad_shape data)
  | JsonValueError => true
  | JsonRecursionError => false
  end.

(** A world that keeps the log of the requests it was sent, oldest
    first, and answers each by [answer]. *)
Definition logging (answer : Request -> probe)
  : Request -> list Request -> probe * list Request :=
  fun req log => (answer req, log ++ [req]).

(** The requests of one row of the scan, and of a whole scan, in the
    order of the two loops. *)
Definition row_requests (variant : str) : list Request :=
  map (fun item =>
         probe_request (fst item) variant
           (format_username (snd item) variant) 8%float)
      SERVICES.

Definition scan_requests (variants : list str) : list Request :=
  flat_map row_requests variants.

(** The cell [check_username_single] writes for platform [s], variant
    [v] and the answer [a] of [check_profile]. *)
Definition stored (s v template : str) (a : bool * option Z * option str)
  : str * UsernameCheckResult :=
  (s, {| service := s; username := v;
         url := format_username template v;
         exists_ := fst (fst a); http_status := snd (fst a);
         error := snd a |}).

(* ================================================================== *)
(** * Report and prompt: [print_results] and the end of [run_scan] *)
(* ================================================================== *)

(** The terminal colours. *)
Definition ESC : str := [27%N].
Definition GREEN : str := ESC ++ py "[32m".
Definition RED : str := ESC ++ py "[31m".
Definition RESET : str := ESC ++ py "[0m".

(** The line feed. *)
Definition LF : str := [10%N].

(** [service.replace("_", " ")]. *)
Definition replace_underscore (s : str) : str :=
  map (fun c => if N.eqb c (chr "_") then chr " " else c) s.

(** [f"{s:15}"] for a string: padded with spaces on the right up to the
    width, never cut. *)
Definition pad (width : nat) (s : str) : str :=
  s ++ repeat (chr " ") (width - length s).

Definition no_profiles_line : str :=
  RED ++ py "No profiles found for this variant." ++ RESET.

Definition found_line (pretty_name url : str) : str :=
  GREEN ++ py "[+] " ++ pad 15 pretty_name ++ py " FOUND  -> " ++ url ++ RESET.

Definition not_found_line (pretty_name : str) : str :=
  RED ++ py "[-] " ++ pad 15 pretty_name ++ py " not found" ++ RESET.

Section Report.

(** [str.title]. *)
Variable title : str -> str.

(** The inner loop of [print_results] over [results.items()]: the flag
    [any_found] and the texts printed so far, one per call of [print]. *)
Fixpoint print_services (items : dict str UsernameCheckResult)
  (any_found : bool) (out : list str) : bool * list str :=
  match items with
  | [] => (any_found, out)
  | (service, r) :: items' =>
      let pretty_name := title (replace_underscore service) in
      if exists_ r
      then print_services items' true
             (out ++ [found_line pretty_name (url r)])
      else print_services items' any_found
             (out ++ [not_found_line pretty_name])
  end.

(** The outer loop of [print_results] over [all_results.items()]. *)
Fixpoint print_variants (all_results : dict str (dict str UsernameCheckResult))
  (out : list str) : list str :=
  match all_results with
  | [] => out
  | (variant, results) :: rest =>
      let out1 := out ++ [py "--- Username variant: " ++ variant ++ py " ---"] in
      let (any_found, out2) := print_services results false out1 in
      let out3 := if negb any_found then out2 ++ [no_profiles_line] else out2 in
      print_variants rest (out3 ++ [py ""])
  end.

(** [print_results]: the texts it prints, one per call of [print] (each
    is followed by a line feed on the terminal). *)
Definition print_results (base_username : str)
  (all_results : dict str (dict str UsernameCheckResult)) : list str :=
  let out := [ LF ++ py "======================================";
               py "     OSINT RESULTS FOR BASE: " ++ base_username;
               py "======================================" ++ LF ] in
  print_variants all_results out ++ [py "Scan complete." ++ LF].

End Report.

Section Prompt.

(** [str.strip] and [str.lower]. *)
Variable strip : str -> str.
Variable lower : str -> str.

Definition again_prompt : str :=
  py "Do you want to scan another username? (y/n): ".

Definition please_answer : str := py "Please answer with 'y' or 'n'.".

(** The closing loop of [run_scan], run on the lines still to be read
    from the terminal.  It returns the decision ([None] when the input
    ends before a decision, where [input] raises [EOFError]), the texts
    written (the prompt of each [input], the text of each [print]) and
    the lines left unread. *)
Fixpoint ask_again (lines : list str) (out : list str)
  : option bool * list str * list str :=
  match lines with
  | [] => (None, out ++ [again_prompt], [])
  | line :: rest =>
      let again := lower (strip line) in
      if str_mem again [py "y"; py "yes"]
      then (Some true, out ++ [again_prompt], rest)
      else if str_mem again [py "n"; py "no"; py ""]
      then (Some false, out ++ [again_prompt], rest)
      else ask_again rest (out ++ [again_prompt; please_answer])
  end.

End Prompt.

(** ASCII versions of [str.strip] and [str.title], for running the
    report and the prompt on ASCII text: blanks are the ASCII characters
    for which [str.isspace] holds (tab to carriage return, the four
    separators U+001C to U+001F, and the space); a letter is upper-cased
    when it follows a character that is not a letter, and lower-cased
    otherwise. *)
Definition ascii_space (c : char) : bool :=
  N.eqb c 32 || (N.leb 9 c && N.leb c 13) || (N.leb 28 c && N.leb c 31).

Fixpoint lstrip (s : str) : str :=
  match s with
  | [] => []
  | c :: s' => if ascii_space c then lstrip s' else s
  end.

Definition ascii_strip (s : str) : str := rev (lstrip (rev (lstrip s))).

Definition ascii_upper_char (c : char) : char :=
  if (N.leb 97 c && N.leb c 122)%bool then (c - 32)%N else c.

Definition ascii_letter (c : char) : bool :=
  (N.leb 65 c && N.leb c 90) || (N.leb 97 c && N.leb c 122).

Fixpoint title_from (after_letter : bool) (s : str) : str :=
  match s with
  | [] => []
  | c :: s' =>
      (if after_letter then ascii_lower_char c else ascii_upper_char c)
      :: title_from (ascii_letter c) s'
  end.

Definition ascii_title (s : str) : str := title_from false s.

(** What the report shows of a table: per variant and platform, whether
    the result is positive, and the url of a positive result. *)
Definition shown_cell (cell : str * UsernameCheckResult)
  : str * bool * str :=
  (fst cell, exists_ (snd cell),
   if exists_ (snd cell) then url (snd cell) else []).

Definition shown (t : dict str (dict str UsernameCheckResult))
  : list (str * list (str * bool * str)) :=
  map (fun row => (fst row, map shown_cell (snd row))) t.

(** The line of the report for one cell, and the block for one row. *)
Definition cell_line (title : str -> str)
  (cell : str * UsernameCheckResult) : str :=
  if exists_ (snd cell)
  then found_line (title (replace_underscore (fst cell))) (url (snd cell))
  else not_found_line (title (replace_underscore (fst cell))).

Definition row_block (title : str -> str)
  (row : str * dict str UsernameCheckResult) : list str :=
  [py "--- Username variant: " ++ fst row ++ py " ---"]
  ++ map (cell_line title) (snd row)
  ++ (if existsb (fun cell => exists_ (snd cell)) (snd row)
      then [] else [no_profiles_line])
  ++ [py ""].

(** The answers the closing prompt accepts, once stripped and lowered. *)
Definition accepted : list str :=
  [py "y"; py "yes"; py "n"; py "no"; py ""].



Definition reddit_nobody_response : Response :=
  {| resp_status_code := 200;
     resp_text := py "Sorry, nobody on Reddit goes by that name.";
     resp_url := py "https://www.reddit.com/user/ghost";
     resp_json := JsonValueError |}.



Definition empty_user_response : Response :=
  {| resp_status_code := 200;
     resp_text := py "{" ++ dquote ++ py "data" ++ dquote ++ py ":{" ++
                  dquote ++ py "user" ++ dquote ++ py ":{}}}";
     resp_url := py "https://i.instagram.com/api/v1/users/web_profile_info/?username=ghost";
     resp_json := JsonValue (JDict [(py "data", JDict [(py "user", JDict [])])]) |}.


(** A 200 response whose body is a hundred thousand opening brackets:
    the decoder descends one level per bracket and runs into the
    recursion limit. *)
Definition deep_json_response : Response :=
  {| resp_status_code := 200;
     resp_text := repeat (chr "[") (N.to_nat 100000);
     resp_url := py "https://i.instagram.com/api/v1/users/web_profile_info/?username=ghost";
     resp_json := JsonRecursionError |}.


(** Two one-row tables that differ in what the report does not show: a
    negative result without note, and one with status and note absent
    or present and another url. *)
Definition quiet_table : dict str (dict str UsernameCheckResult) :=
  [(py "abc",
    [(py "github_gist",
      {| service := py "github_gist"; username := py "abc";
         url := py "https://gist.github.com/abc";
         exists_ := false; http_status := Some 404%Z; error := None |})])].

Definition noisy_table : dict str (dict str UsernameCheckResult) :=
  [(py "abc",
    [(py "github_gist",
      {| service := py "github_gist"; username := py "abc";
         url := py "https://gist.github.com/abc?tab=all";
         exists_ := false; http_status := None;
         error := Some (py "Read timed out.") |})])].

(* ================================================================== *)
(** * Properties of strings and dicts *)
(* ================================================================== *)

Lemma str_eqb_eq (a b : str) : str_eqb a b = true <-> a = b.
Proof.
  revert b; induction a as [|x a IH]; intros [|y b]; simpl;
    try (split; [discriminate | discriminate]); [tauto|].
  rewrite andb_true_iff, N.eqb_eq, IH.
  split; [intros [-> ->]; reflexivity | intros E; inversion E; auto].
Qed.

Lemma str_eqb_refl (a : str) : str_eqb a a = true.
Proof. apply str_eqb_eq; reflexivity. Qed.

Lemma str_mem_In (c : str) (seen : list str) :
  str_mem c seen = true <-> In c seen.
Proof.
  unfold str_mem. rewrite existsb_exists. split.
  - intros [x [Hin Heq]]. apply str_eqb_eq in Heq. subst; assumption.
  - intros Hin. exists c. split; [assumption | apply str_eqb_refl].
Qed.

Lemma str_mem_not_In (c : str) (seen : list str) :
  str_mem c seen = false <-> ~ In c seen.
Proof.
  rewrite <- str_mem_In. destruct (str_mem c seen); split; congruence.
Qed.

Lemma startswith_map (f : char -> char) (s prefix : str) :
  startswith s prefix = true -> startswith (map f s) (map f prefix) = true.
Proof.
  revert s; induction prefix as [|p prefix IH]; intros [|c s]; simpl;
    try (intros; congruence).
  rewrite !andb_true_iff, !N.eqb_eq. intros [-> H]. auto.
Qed.

Lemma contains_map (f : char -> char) (needle hay : str) :
  contains needle hay = true -> contains (map f needle) (map f hay) = true.
Proof.
  induction hay as [|c hay IH]; simpl; rewrite !orb_true_iff.
  - intros [H | H]; [| discriminate]. left.
    exact (startswith_map f [] needle H).
  - intros [H | H]; [left | right; auto].
    exact (startswith_map f (c :: hay) needle H).
Qed.

(** A text that occurs in a page in some ASCII letter case occurs, lowered,
    in the lowered page. *)
Lemma contains_ascii_lower (needle hay : str) :
  contains needle hay = true ->
  contains (ascii_lower needle) (ascii_lower hay) = true.
Proof. apply contains_map. Qed.

Lemma distinctb_NoDup (l : list str) : distinctb l = true -> NoDup l.
Proof.
  induction l as [|x l IH]; simpl; intros H; constructor.
  - apply andb_true_iff in H. destruct H as [H _].
    apply negb_true_iff, str_mem_not_In in H. exact H.
  - apply IH. apply andb_true_iff in H. tauto.
Qed.

(** Writing under a key the dict does not hold appends the item. *)
Lemma dict_set_fresh (V : Type) (k : str) (v : V) (d : dict str V) :
  ~ In k (map fst d) -> dict_set k v d = d ++ [(k, v)].
Proof.
  induction d as [|[k' v'] d IH]; simpl; intros Hfresh; [reflexivity|].
  destruct (str_eqb k k') eqn:E.
  - apply str_eqb_eq in E. subst. tauto.
  - rewrite IH; [reflexivity | tauto].
Qed.

(* ================================================================== *)
(** * Properties of the variant generator *)
(* ================================================================== *)

Lemma split_sep_length (s : str) :
  length (snd (split_sep s)) = length (filter is_separator s).
Proof.
  induction s as [|c s IH]; simpl; [reflexivity|].
  destruct (split_sep s) as [p ps]. simpl in IH.
  destruct (is_separator c); simpl; congruence.
Qed.

Lemma split_sep_clean (s : str) :
  re_search_sep (fst (split_sep s)) = false /\
  Forall (fun p => re_search_sep p = false) (snd (split_sep s)).
Proof.
  induction s as [|c s [IH1 IH2]]; simpl; [split; [reflexivity | constructor]|].
  destruct (split_sep s) as [p ps]. simpl in *.
  destruct (is_separator c) eqn:E; simpl.
  - split; [reflexivity | constructor; assumption].
  - rewrite E. simpl. split; assumption.
Qed.

Lemma split_sep_weave (s : str) :
  weave (fst (split_sep s) :: snd (split_sep s)) (filter is_separator s) = s.
Proof.
  induction s as [|c s IH]; simpl; [reflexivity|].
  destruct (split_sep s) as [p ps]. simpl in IH.
  destruct (is_separator c) eqn:E; simpl.
  - f_equal. exact IH.
  - destruct (filter is_separator s) as [|c' seps]; simpl in *.
    + congruence.
    + f_equal. exact IH.
Qed.

(** C1, as the code has it.  A base handle that contains a separator is
    cut at every single separator character: [parts] is [re.split] on the
    one-character class, a base with n separator characters gives n+1
    parts, no part contains a separator, and putting the separators back
    between the parts gives the base again (so two adjacent separators
    enclose an empty part). *)
Theorem parts_cut_at_every_separator (base : str) :
  re_search_sep base = true ->
  parts base = re_split_sep base /\
  length (parts base) = S (length (filter is_separator base)) /\
  Forall (fun p => re_search_sep p = false) (parts base) /\
  weave (parts base) (filter is_separator base) = base.
Proof.
  intros Hsep. unfold parts. rewrite Hsep. unfold re_split_sep.
  pose proof (split_sep_length base) as Hlen.
  pose proof (split_sep_clean base) as [Hp Hps].
  pose proof (split_sep_weave base) as Hw.
  destruct (split_sep base) as [p ps]. simpl in *.
  repeat split; auto.
Qed.

(** The cut at every separator, on ["a..b_c"]. *)
Lemma parts_cut_at_every_separator_witness :
  re_search_sep (py "a..b_c") = true /\
  parts (py "a..b_c") = [py "a"; py ""; py "b"; py "c"] /\
  weave (parts (py "a..b_c")) (filter is_separator (py "a..b_c"))
    = py "a..b_c".
Proof.
  split; [reflexivity|].
  destruct (parts_cut_at_every_separator (py "a..b_c") eq_refl)
    as [Hparts [_ [_ Hweave]]].
  split; [rewrite Hparts; reflexivity | exact Hweave].
Defined.

(** C1, as the specification words it, fails: on ["a..b"] the code yields
    three parts, the middle one empty, where a split on the first run of
    separators yields the two parts ["a"] and ["b"]; on ["a.b.c"] it
    yields three parts, not two. *)
Lemma parts_not_first_run_split :
  re_search_sep (py "a..b") = true /\
  parts (py "a..b") = [py "a"; py ""; py "b"] /\
  split_first_run (py "a..b") = [py "a"; py "b"] /\
  parts (py "a..b") <> split_first_run (py "a..b") /\
  re_search_sep (py "a.b.c") = true /\
  length (parts (py "a.b.c")) = 3%nat.
Proof.
  repeat split; try reflexivity. vm_compute. discriminate.
Qed.

(** C6.  The five candidates of ["john.doe"] and the four variants left
    after de-duplication. *)
Theorem generate_variants_john_doe :
  candidates (py "john.doe")
    = [py "john.doe"; py "johndoe"; py "john.doe"; py "john-doe";
       py "john_doe"] /\
  generate_variants (py "john.doe")
    = [py "john.doe"; py "johndoe"; py "john-doe"; py "john_doe"].
Proof. split; reflexivity. Qed.

(** C10.  The empty base handle has no variants: its five candidates are
    all empty, and empty candidates are skipped. *)
Theorem generate_variants_empty :
  candidates (py "") = [py ""; py ""; py ""; py ""; py ""] /\
  generate_variants (py "") = [].
Proof. split; reflexivity. Qed.

(** The two other worked examples of the generator: a short handle is
    its own only variant, and a handle without separator is cut at its
    midpoint. *)
Lemma generate_variants_abc :
  generate_variants (py "abc") = [py "abc"].
Proof. reflexivity. Qed.

Lemma generate_variants_abcdef :
  parts (py "abcdef") = [py "abc"; py "def"] /\
  generate_variants (py "abcdef")
    = [py "abcdef"; py "abc.def"; py "abc-def"; py "abc_def"].
Proof. split; reflexivity. Qed.

Lemma format_username_tiktok :
  format_username (py "https://www.tiktok.com/@{username}") (py "john.doe")
  = py "https://www.tiktok.com/@john.doe".
Proof. reflexivity. Qed.

Lemma dedup_loop_NoDup (cs variants seen : list str) :
  NoDup variants -> (forall x, In x variants -> In x seen) ->
  NoDup (dedup_loop cs variants seen).
Proof.
  revert variants seen.
  induction cs as [|c cs IH]; simpl; intros variants seen Hnd Hsub; [exact Hnd|].
  destruct (str_truthy c && negb (str_mem c seen)) eqn:E.
  - apply andb_true_iff in E. destruct E as [_ E].
    apply negb_true_iff, str_mem_not_In in E.
    apply IH.
    + apply NoDup_app; [exact Hnd | constructor; [intros [] | constructor] |].
      intros x Hx [<- | []]. apply E, Hsub, Hx.
    + intros x Hx. apply in_app_or in Hx. simpl.
      destruct Hx as [Hx | [<- | []]]; auto.
  - apply IH; assumption.
Qed.

Lemma generate_variants_NoDup (base : str) : NoDup (generate_variants base).
Proof.
  unfold generate_variants. apply dedup_loop_NoDup.
  - constructor.
  - intros x [].
Qed.

(* ================================================================== *)
(** * Properties of the existence classifier *)
(* ================================================================== *)

Section ClassifierProperties.

Variable lower : str -> str.
Variable World : Type.
Variable requests_get : Request -> World -> probe * World.

Local Notation "'check'" := (check_profile lower requests_get).

(** Expose the probe of [check_profile] and feed it the outcome [H]. *)
Ltac enter_branch :=
  unfold check_profile, probe_request, try_except_RequestException, bind,
         http_get, lift, ret;
  let Hig := fresh "Hig" in
  let Htw := fresh "Htw" in
  destruct (str_eqb _ (py "instagram")) eqn:Hig;
  [| destruct (str_eqb _ (py "twitter")) eqn:Htw].

Ltac feed H := intros H; rewrite H; cbv beta iota zeta.

Ltac split_cases :=
  repeat (cbv beta iota zeta;
          match goal with
          | |- context [if ?b then _ else _] => destruct b eqn:?
          | |- context [match py_get ?v ?k ?d with _ => _ end] =>
              let H := fresh "Hget" in
              destruct (py_get v k d) as [? | [? | |]] eqn:H;
              [ | exfalso; destruct v; cbv [py_get] in H; discriminate H
                | | exfalso; destruct v; cbv [py_get] in H; discriminate H ]
          | |- context [match resp_json ?r with _ => _ end] =>
              destruct (resp_json r) eqn:?
          end);
  cbv beta iota zeta.

(** A transport failure is reported, not raised: the answer is negative,
    has no status, and carries the text of the error. *)
Lemma check_profile_transport_failure
  (service username url : str) (timeout : float) (w w' : World) (msg : str) :
  requests_get (probe_request service username url timeout) w = (inr msg, w') ->
  check service username url timeout w = (Return (false, None, Some msg), w').
Proof.
  revert w w' msg. enter_branch; intros w w' msg; feed H; reflexivity.
Qed.

(** C9.  A positive answer always carries the response status and never
    a note. *)
Theorem positive_answer_has_status_and_no_note
  (service username url : str) (timeout : float) (w w' : World)
  (status : option Z) (note : option str) :
  check service username url timeout w = (Return (true, status, note), w') ->
  (exists code, status = Some code) /\ note = None.
Proof.
  destruct (requests_get (probe_request service username url timeout) w)
    as [[resp | msg] w1] eqn:Hprobe.
  - revert Hprobe. enter_branch; feed H; split_cases;
      intros E; inversion E; subst; eauto.
  - rewrite (check_profile_transport_failure _ _ _ _ Hprobe).
    intros E; inversion E.
Qed.

(** Close a branch that a hypothesis of the form [b = false] rules out. *)
Ltac absurd_branch :=
  exfalso;
  repeat match goal with
         | H : _ || _ = false |- _ =>
             apply orb_false_iff in H; destruct H
         end;
  congruence.


(** C5, as the code has it.  On Twitter, a page received with status 200
    whose lowered text contains "account suspended" is answered [Exists]
    provided no "page doesn't exist" marker is present (those are looked
    for first). *)
Theorem suspended_page_exists
  (username url : str) (timeout : float) (w w' : World) (resp : Response) :
  requests_get (probe_request (py "twitter") username url timeout) w
    = (inl resp, w') ->
  resp_status_code resp = 200%Z ->
  contains (py "account suspended") (lower (resp_text resp)) = true ->
  negative_marker_matches lower (py "twitter") resp = false ->
  check (py "twitter") username url timeout w
    = (Return (true, Some 200%Z, None), w') /\
  verdict_of (true, Some 200%Z, None) = Exists.
Proof.
  intros Hprobe H200 Hsusp Hneg. split; [| reflexivity].
  revert Hprobe Hneg. unfold negative_marker_matches.
  enter_branch; try discriminate; feed H.
  intros Hneg. rewrite H200, Hsusp.
  change (Z.eqb 200 404) with false.
  split_cases; solve [reflexivity | absurd_branch].
Qed.

(** The two cases the Instagram branch handles on a 200 response: the
    JSON value [{"data": {"user": null}}] is answered [NotExists], with
    status 200 and no note; and when [resp.json()] raises [ValueError]
    the answer is [Uncertain], with the note "invalid_json". *)
Lemma instagram_null_user_and_invalid_json
  (username url : str) (timeout : float) (w w' : World) (resp : Response) :
  requests_get (probe_request (py "instagram") username url timeout) w
    = (inl resp, w') ->
  resp_status_code resp = 200%Z ->
  (resp_json resp = JsonValue (JDict [(py "data", JDict [(py "user", JNone)])]) ->
   check (py "instagram") username url timeout w
     = (Return (false, Some 200%Z, None), w') /\
   verdict_of (false, Some 200%Z, None) = NotExists) /\
  (resp_json resp = JsonValueError ->
   check (py "instagram") username url timeout w
     = (Return (false, Some 200%Z, Some (py "invalid_json")), w') /\
   verdict_of (false, Some 200%Z, Some (py "invalid_json")) = Uncertain).
Proof.
  intros Hprobe H200. revert Hprobe.
  enter_branch; try discriminate; feed H.
  rewrite H200.
  split; intros Hjson; rewrite Hjson; split; reflexivity.
Qed.

(** On Instagram, a 200 response whose JSON value is not a dict makes
    [data.get] raise [AttributeError], which no handler catches. *)
Lemma instagram_non_dict_raises
  (username url : str) (timeout : float) (w w' : World) (resp : Response)
  (data : json) :
  requests_get (probe_request (py "instagram") username url timeout) w
    = (inl resp, w') ->
  resp_status_code resp = 200%Z ->
  resp_json resp = JsonValue data ->
  (forall items, data <> JDict items) ->
  check (py "instagram") username url timeout w = (Raise AttributeError, w').
Proof.
  intros Hprobe H200 Hjson Hshape. revert Hprobe.
  enter_branch; try discriminate; feed H.
  rewrite H200, Hjson.
  destruct data; try reflexivity. exfalso. eapply Hshape. reflexivity.
Qed.

(** The outcome of [check_profile] is the outcome of replaying the probe
    it received: it depends on the world, the url and the timeout only
    through that probe. *)
Lemma check_profile_replay
  (service username url : str) (timeout : float) (w : World) :
  fst (check service username url timeout w)
  = classify_recorded lower service username
      (fst (requests_get (probe_request service username url timeout) w)).
Proof.
  unfold classify_recorded.
  destruct (requests_get (probe_request service username url timeout) w)
    as [p w1] eqn:Hprobe.
  revert Hprobe. unfold replay.
  enter_branch; feed H; destruct p; cbn [fst]; split_cases; reflexivity.
Qed.

End ClassifierProperties.

(* ================================================================== *)
(** * Properties of the scan *)
(* ================================================================== *)

Lemma dict_get_In (V : Type) (d : dict str V) (k : str) (v : V) :
  NoDup (map fst d) -> In (k, v) d -> dict_get k d = Some v.
Proof.
  induction d as [|[k' v'] d IH]; simpl; intros Hnd Hin; [contradiction|].
  inversion Hnd as [|? ? Hfresh Hnd']; subst.
  destruct Hin as [E | Hin].
  - inversion E; subst. rewrite str_eqb_refl. reflexivity.
  - destruct (str_eqb k k') eqn:E.
    + apply str_eqb_eq in E. subst. exfalso. apply Hfresh.
      change k' with (fst (k', v)). apply in_map. exact Hin.
    + apply IH; assumption.
Qed.

Lemma NoDup_list_prod (A B : Type) (l : list A) (l' : list B) :
  NoDup l -> NoDup l' -> NoDup (list_prod l l').
Proof.
  intros Hl Hl'. induction Hl as [|x l Hx Hl IH]; simpl; [constructor|].
  apply NoDup_app.
  - clear -Hl'. induction Hl' as [|y l' Hy Hl' IH]; simpl; constructor; auto.
    rewrite in_map_iff. intros [y' [E Hin]]. inversion E; subst. auto.
  - exact IH.
  - intros [a b] Hin1 Hin2.
    apply in_map_iff in Hin1. destruct Hin1 as [y [E _]]. inversion E; subst.
    apply in_prod_iff in Hin2. tauto.
Qed.

Lemma SERVICES_distinct : NoDup (map fst SERVICES).
Proof. apply distinctb_NoDup. vm_compute. reflexivity. Qed.

Section ScanProperties.

Variable lower : str -> str.
Variable World : Type.
Variable requests_get : Request -> World -> probe * World.

(** The service loop appends one cell per item, in order, when the keys
    of the items are distinct and new to the accumulator. *)
Lemma check_services_appends (items : dict str str) (variant : str) :
  forall (results r : dict str UsernameCheckResult) (w w' : World),
    check_services lower requests_get items variant results w
      = (Return r, w') ->
    NoDup (map fst items) ->
    (forall k, In k (map fst items) -> ~ In k (map fst results)) ->
    exists cells,
      r = results ++ cells /\
      map fst cells = map fst items /\
      Forall (cell_for variant) cells.
Proof.
  induction items as [|[s template] items IH];
    intros results r w w' Hrun Hnd Hfresh.
  - inversion Hrun; subst. exists []. rewrite app_nil_r. auto.
  - simpl in Hrun. unfold bind in Hrun.
    destruct (check_profile lower requests_get s variant
                (format_username template variant) 8%float w)
      as [[[[e st] er] | ex] w1]; [| discriminate].
    inversion Hnd as [|? ? Hs Hnd']; subst.
    rewrite dict_set_fresh in Hrun by (apply Hfresh; left; reflexivity).
    apply IH in Hrun; [| exact Hnd' |].
    + destruct Hrun as [cells [-> [Hkeys Hcells]]].
      eexists (_ :: cells). rewrite <- app_assoc. split; [reflexivity|].
      split; [simpl; f_equal; exact Hkeys|].
      constructor; [split; reflexivity | exact Hcells].
    + intros k Hk. rewrite map_app, in_app_iff. simpl.
      intros [Hin | [<- | []]].
      * exact (Hfresh k (or_intror Hk) Hin).
      * exact (Hs Hk).
Qed.

Lemma check_username_single_row (variant : str)
  (r : dict str UsernameCheckResult) (w w' : World) :
  check_username_single lower requests_get variant w = (Return r, w') ->
  row_for (variant, r).
Proof.
  intros Hrun. unfold check_username_single in Hrun.
  apply check_services_appends in Hrun;
    [| exact SERVICES_distinct | intros k _ []].
  destruct Hrun as [cells [-> [Hkeys Hcells]]]. split; assumption.
Qed.

(** The variant loop appends one row per variant, in order, when the
    variants are distinct and new to the accumulator. *)
Lemma scan_variants_appends (variants : list str) :
  forall (all_results t : ResultTable) (w w' : World),
    scan_variants lower requests_get variants all_results w
      = (Return t, w') ->
    NoDup variants ->
    (forall v, In v variants -> ~ In v (map fst all_results)) ->
    exists rows,
      t = all_results ++ rows /\
      map fst rows = variants /\
      Forall row_for rows.
Proof.
  induction variants as [|v variants IH];
    intros all_results t w w' Hrun Hnd Hfresh.
  - inversion Hrun; subst. exists []. rewrite app_nil_r. auto.
  - simpl in Hrun. unfold bind in Hrun.
    destruct (check_username_single lower requests_get v w)
      as [[r | ex] w1] eqn:Hrow; [| discriminate].
    apply check_username_single_row in Hrow.
    inversion Hnd as [|? ? Hv Hnd']; subst.
    rewrite dict_set_fresh in Hrun by (apply Hfresh; left; reflexivity).
    apply IH in Hrun; [| exact Hnd' |].
    + destruct Hrun as [rows [-> [Hkeys Hrows]]].
      exists ((v, r) :: rows). rewrite <- app_assoc. split; [reflexivity|].
      split; [simpl; f_equal; exact Hkeys|].
      constructor; assumption.
    + intros k Hk. rewrite map_app, in_app_iff. simpl.
      intros [Hin | [<- | []]].
      * exact (Hfresh k (or_intror Hk) Hin).
      * exact (Hv Hk).
Qed.

End ScanProperties.

Lemma table_keys_rows (rows : ResultTable) :
  Forall row_for rows ->
  table_keys rows = list_prod (map fst rows) (map fst SERVICES).
Proof.
  induction 1 as [|[v r] rows [Hkeys _] _ IH]; [reflexivity|].
  unfold table_keys in *. cbn [flat_map list_prod map fst snd] in *.
  rewrite IH, <- Hkeys, map_map. reflexivity.
Qed.

Lemma table_results_length (rows : ResultTable) :
  Forall row_for rows ->
  length (table_results rows) = (length SERVICES * length rows)%nat.
Proof.
  induction 1 as [|[v r] rows [Hkeys _] _ IH].
  - rewrite Nat.mul_0_r. reflexivity.
  - unfold table_results in *. cbn [flat_map fst snd length] in *.
    rewrite length_app, IH, length_map.
    apply (f_equal (@length str)) in Hkeys.
    rewrite !length_map in Hkeys. rewrite Hkeys. lia.
Qed.

Lemma table_get_rows (rows : ResultTable) (v s : str) :
  Forall row_for rows -> NoDup (map fst rows) ->
  In v (map fst rows) -> In s (map fst SERVICES) ->
  exists r, table_get rows v s = Some r /\ username r = v /\ service r = s.
Proof.
  intros Hrows Hnd Hv Hs.
  apply in_map_iff in Hv. destruct Hv as [[v' row] [Ev Hin]].
  simpl in Ev. subst v'.
  unfold table_get. rewrite (@dict_get_In _ _ _ _ Hnd Hin).
  rewrite Forall_forall in Hrows. destruct (Hrows _ Hin) as [Hkeys Hcells].
  cbn [fst snd] in Hkeys, Hcells.
  rewrite <- Hkeys in Hs.
  apply in_map_iff in Hs. destruct Hs as [[s' r] [Es Hcell]].
  simpl in Es. subst s'.
  assert (Hrow : NoDup (map fst row))
    by (rewrite Hkeys; exact SERVICES_distinct).
  exists r. rewrite (@dict_get_In _ _ _ _ Hrow Hcell).
  rewrite Forall_forall in Hcells. destruct (Hcells _ Hcell) as [H1 H2].
  simpl in H1, H2. auto.
Qed.

(** C4.  Completeness.  After a completed scan of a base handle the
    table's (variant, platform) keys are exactly the product of the
    generated variants with the registered platforms, each once; the
    table holds as many check results as there are such pairs; and the
    result stored under a pair names that variant and that platform.
    This holds whatever the probes answered. *)
Theorem scan_table_complete
  (lower : str -> str) (World : Type)
  (requests_get : Request -> World -> probe * World)
  (base : str) (w w' : World) (table : ResultTable) :
  run_scan_table lower requests_get base w = (Return (Some table), w') ->
  table_keys table
    = list_prod (generate_variants base) (map fst SERVICES) /\
  NoDup (table_keys table) /\
  length (table_results table)
    = (length SERVICES * length (generate_variants base))%nat /\
  (forall v s,
      In v (generate_variants base) -> In s (map fst SERVICES) ->
      exists r,
        table_get table v s = Some r /\ username r = v /\ service r = s).
Proof.
  unfold run_scan_table. intros Hrun.
  destruct (negb (str_truthy base)); [discriminate|].
  unfold bind in Hrun.
  destruct (scan_variants lower requests_get (generate_variants base) [] w)
    as [[t | ex] w1] eqn:Hscan; [| discriminate].
  inversion Hrun; subst t w1. clear Hrun.
  pose proof (generate_variants_NoDup base) as Hnd.
  apply scan_variants_appends in Hscan; [| exact Hnd | intros v _ []].
  destruct Hscan as [rows [-> [Hkeys Hrows]]]. simpl.
  assert (Hprod : table_keys rows
                  = list_prod (generate_variants base) (map fst SERVICES)).
  { rewrite <- Hkeys. apply table_keys_rows. exact Hrows. }
  split; [exact Hprod|]. split.
  - rewrite Hprod. apply NoDup_list_prod; [exact Hnd | exact SERVICES_distinct].
  - split.
    + rewrite <- Hkeys, length_map. apply table_results_length. exact Hrows.
    + intros v s Hv Hs. apply table_get_rows; try assumption.
      * rewrite Hkeys. exact Hnd.
      * rewrite Hkeys. exact Hv.
Qed.

(* ================================================================== *)
(** * Determinism, and the classifier on recorded responses *)
(* ================================================================== *)

(** C8.  Determinism.  Two runs of [check_profile] for the same platform
    and handle whose probes received the same outcome end the same way:
    same answer, same status, same note -- in whatever worlds they ran,
    and whatever url and timeout they were given. *)
Theorem check_profile_deterministic
  (lower : str -> str) (World1 World2 : Type)
  (get1 : Request -> World1 -> probe * World1)
  (get2 : Request -> World2 -> probe * World2)
  (service username url1 url2 : str) (timeout1 timeout2 : float)
  (w1 : World1) (w2 : World2) :
  fst (get1 (probe_request service username url1 timeout1) w1)
    = fst (get2 (probe_request service username url2 timeout2) w2) ->
  fst (check_profile lower get1 service username url1 timeout1 w1)
    = fst (check_profile lower get2 service username url2 timeout2 w2).
Proof.
  intros Hsame. rewrite !check_profile_replay. rewrite Hsame. reflexivity.
Qed.

(** Two runs on the same recorded page, in two different worlds and with
    different urls and timeouts. *)
Lemma check_profile_deterministic_witness :
  fst (check_profile ascii_lower (replay (inl suspended_response))
         (py "twitter") (py "ghost") (py "https://twitter.com/ghost")
         8%float tt)
  = fst (check_profile ascii_lower
           (fun (_ : Request) (n : nat) => (inl suspended_response, S n))
           (py "twitter") (py "ghost") (py "https://x.com/ghost")
           30%float 7%nat).
Proof.
  apply check_profile_deterministic. reflexivity.
Defined.

(** C2, at its failing input.  On Instagram, the 200 response whose JSON
    value is [{"data": null}] makes [check_profile] raise
    [AttributeError]: [data.get("data", {})] is [None], and [None] has no
    [get]. *)
Theorem instagram_null_data_raises :
  check_profile ascii_lower (replay (inl null_data_response))
    (py "instagram") (py "ghost") (py "https://www.instagram.com/ghost/")
    8%float tt
  = (Raise AttributeError, tt).
Proof. vm_compute. reflexivity. Qed.

(** C7, at its failing input.  On Instagram, the 200 response whose body
    is a hundred thousand opening brackets does not parse as JSON, yet it
    is not answered "invalid_json": [resp.json()] raises
    [RecursionError], which the handler for [ValueError] does not catch,
    and [check_profile] raises it on to its caller. *)
Theorem instagram_deep_json_raises :
  check_profile ascii_lower (replay (inl deep_json_response))
    (py "instagram") (py "ghost") (py "https://www.instagram.com/ghost/")
    8%float tt
  = (Raise RecursionError, tt).
Proof. reflexivity. Qed.

(** C5, as the specification words it, fails: a 200 page that contains
    "Account suspended" after the "page doesn't exist" text is answered
    [NotExists], because the not-exist markers are looked for first. *)
Lemma suspended_text_with_missing_marker :
  resp_status_code missing_and_suspended_response = 200%Z /\
  contains (py "account suspended")
    (ascii_lower (resp_text missing_and_suspended_response)) = true /\
  check_profile ascii_lower (replay (inl missing_and_suspended_response))
    (py "twitter") (py "ghost") (py "https://twitter.com/ghost") 8%float tt
  = (Return (false, Some 200%Z, None), tt) /\
  verdict_of (false, Some 200%Z, None) <> Exists.
Proof.
  repeat split; try (vm_compute; reflexivity). discriminate.
Qed.

(** A suspended page without not-exist marker, replayed. *)
Lemma suspended_page_exists_witness :
  check_profile ascii_lower (replay (inl suspended_response))
    (py "twitter") (py "ghost") (py "https://twitter.com/ghost") 8%float tt
  = (Return (true, Some 200%Z, None), tt) /\
  verdict_of (true, Some 200%Z, None) = Exists.
Proof.
  apply (@suspended_page_exists ascii_lower unit
           (replay (inl suspended_response))
           (py "ghost") (py "https://twitter.com/ghost") 8%float tt tt
           suspended_response);
    vm_compute; reflexivity.
Defined.


(** A positive answer and what it carries. *)
Lemma positive_answer_has_status_and_no_note_witness :
  check_profile ascii_lower (replay (inl suspended_response))
    (py "twitter") (py "ghost") (py "https://twitter.com/ghost") 8%float tt
  = (Return (true, Some 200%Z, None), tt) /\
  (exists code, Some 200%Z = Some code) /\ @None str = None.
Proof.
  split; [vm_compute; reflexivity|].
  apply (@positive_answer_has_status_and_no_note ascii_lower unit
           (replay (inl suspended_response))
           (py "twitter") (py "ghost") (py "https://twitter.com/ghost")
           8%float tt tt).
  vm_compute. reflexivity.
Defined.

(** The null-user body and an HTML error page, replayed for the handle
    ["ghost"]. *)
Lemma instagram_null_user_and_invalid_json_witness :
  check_profile ascii_lower (replay (inl ghost_response))
    (py "instagram") (py "ghost") (py "https://www.instagram.com/ghost/")
    8%float tt
  = (Return (false, Some 200%Z, None), tt) /\
  check_profile ascii_lower (replay (inl html_error_response))
    (py "instagram") (py "ghost") (py "https://www.instagram.com/ghost/")
    8%float tt
  = (Return (false, Some 200%Z, Some (py "invalid_json")), tt).
Proof.
  split.
  - apply (proj1 (@instagram_null_user_and_invalid_json ascii_lower unit
                    (replay (inl ghost_response))
                    (py "ghost") (py "https://www.instagram.com/ghost/")
                    8%float tt tt ghost_response eq_refl eq_refl)).
    reflexivity.
  - apply (proj2 (@instagram_null_user_and_invalid_json ascii_lower unit
                    (replay (inl html_error_response))
                    (py "ghost") (py "https://www.instagram.com/ghost/")
                    8%float tt tt html_error_response eq_refl eq_refl)).
    reflexivity.
Defined.

(** A completed scan of ["john.doe"] in the scripted world: 4 variants,
    10 platforms, 40 requests served and 40 results. *)
Lemma scan_table_complete_witness :
  exists table served,
    run_scan_table ascii_lower scripted (py "john.doe") 0%nat
      = (Return (Some table), served) /\
    served = 40%nat /\
    length (table_results table) = 40%nat /\
    NoDup (table_keys table).
Proof.
  eexists. eexists. split; [vm_compute; reflexivity|].
  split; [reflexivity|].
  match goal with
  | |- length (table_results ?t) = _ /\ _ =>
      destruct (@scan_table_complete ascii_lower nat scripted
                  (py "john.doe") 0%nat 40%nat t)
        as [_ [Hnodup [Hlen _]]]
  end.
  - vm_compute. reflexivity.
  - split; [rewrite Hlen; reflexivity | exact Hnodup].
Defined.

(* ================================================================== *)
(** * More on the variant generator *)
(* ================================================================== *)

Lemma dedup_step_new (c : str) (cs variants seen : list str) :
  c <> [] -> ~ In c seen ->
  dedup_loop (c :: cs) variants seen
  = dedup_loop cs (variants ++ [c]) (c :: seen).
Proof.
  intros Hne Hnew. simpl.
  apply str_mem_not_In in Hnew. rewrite Hnew.
  destruct c; [congruence | reflexivity].
Qed.

Lemma dedup_step_old (c : str) (cs variants seen : list str) :
  In c seen ->
  dedup_loop (c :: cs) variants seen = dedup_loop cs variants seen.
Proof.
  intros Hold. simpl. apply str_mem_In in Hold. rewrite Hold.
  rewrite andb_false_r. reflexivity.
Qed.

(** The loop only ever extends [variants], by at most one entry per
    candidate. *)
Lemma dedup_loop_extends (cs variants seen : list str) :
  exists more,
    dedup_loop cs variants seen = variants ++ more /\
    length more <= length cs.
Proof.
  revert variants seen. induction cs as [|c cs IH]; intros variants seen.
  - exists []. rewrite app_nil_r. auto.
  - simpl. destruct (str_truthy c && negb (str_mem c seen)).
    + destruct (IH (variants ++ [c]) (c :: seen)) as [more [E Hlen]].
      exists (c :: more). rewrite E, <- app_assoc. simpl. split; [reflexivity | lia].
    + destruct (IH variants seen) as [more [E Hlen]].
      exists more. split; [exact E | simpl; lia].
Qed.

(** What the loop returns, as a set: what it started with, and the
    non-empty candidates. *)
Lemma dedup_loop_In (v : str) (cs variants seen : list str) :
  (forall x, In x seen <-> In x variants) ->
  In v (dedup_loop cs variants seen)
  <-> In v variants \/ (In v cs /\ v <> []).
Proof.
  revert variants seen. induction cs as [|c cs IH]; intros variants seen Hseen.
  - simpl. tauto.
  - simpl. destruct (str_truthy c && negb (str_mem c seen)) eqn:E.
    + apply andb_true_iff in E. destruct E as [Hc _].
      assert (c <> []) by (destruct c; [discriminate | congruence]).
      rewrite IH.
      * rewrite in_app_iff. simpl. intuition (subst; auto).
      * intros x. simpl. rewrite in_app_iff, Hseen. simpl. tauto.
    + rewrite IH by exact Hseen.
      apply andb_false_iff in E. split; [tauto|].
      intros [Hv | [[<- | Hv] Hne]]; auto.
      left. apply Hseen. destruct E as [E | E].
      * destruct c; [congruence | discriminate].
      * apply negb_false_iff, str_mem_In in E. exact E.
Qed.

(** X1.  The variants of a handle are pairwise distinct, and none of
    them is the empty string. *)
Theorem variants_distinct_nonempty (base : str) :
  NoDup (generate_variants base) /\ ~ In [] (generate_variants base).
Proof.
  split; [apply generate_variants_NoDup|].
  unfold generate_variants. rewrite dedup_loop_In by tauto.
  intros [[] | [_ H]]. congruence.
Qed.

(** X2.  A variant is exactly a non-empty candidate: nothing else is
    produced and no non-empty candidate is lost. *)
Theorem variants_are_nonempty_candidates (base v : str) :
  In v (generate_variants base) <-> In v (candidates base) /\ v <> [].
Proof.
  unfold generate_variants. rewrite dedup_loop_In by tauto.
  simpl. tauto.
Qed.

(** X3.  A non-empty handle is its own first variant, and it has between
    one and five variants. *)
Theorem base_is_first_variant (base : str) :
  base <> [] ->
  (exists rest, generate_variants base = base :: rest) /\
  1 <= length (generate_variants base) <= 5.
Proof.
  intros Hne. unfold generate_variants, candidates.
  rewrite dedup_step_new by (auto; intros []).
  match goal with
  | |- context [dedup_loop ?cs ?vs ?seen] =>
      destruct (dedup_loop_extends cs vs seen) as [more [E Hlen]]
  end.
  rewrite E. simpl in *. split; [eexists; reflexivity | lia].
Qed.

Lemma base_is_first_variant_witness :
  py "john.doe" <> [] /\
  (exists rest, generate_variants (py "john.doe") = py "john.doe" :: rest).
Proof.
  assert (H : py "john.doe" <> []) by (vm_compute; discriminate).
  split; [exact H | exact (proj1 (base_is_first_variant H))].
Defined.

(** X4.  A non-empty handle shorter than four characters and without
    separator has itself as its only variant. *)
Theorem short_handle_single_variant (base : str) :
  base <> [] ->
  re_search_sep base = false ->
  length base < 4 ->
  generate_variants base = [base].
Proof.
  intros Hne Hsep Hlen. unfold generate_variants, candidates, parts.
  rewrite Hsep.
  destruct (Nat.leb 4 (length base)) eqn:E; [apply Nat.leb_le in E; lia|].
  cbn [join].
  rewrite dedup_step_new by (auto; intros []).
  rewrite !dedup_step_old by (left; reflexivity).
  reflexivity.
Qed.

Lemma short_handle_single_variant_witness :
  generate_variants (py "abc") = [py "abc"].
Proof.
  apply short_handle_single_variant.
  - vm_compute. discriminate.
  - reflexivity.
  - vm_compute. lia.
Defined.

Lemma separator_free_neq (a b : str) (c : char) (s : str) :
  is_separator c = true -> re_search_sep s = false -> a ++ c :: b <> s.
Proof.
  intros Hc Hs E. subst s. unfold re_search_sep in Hs.
  rewrite existsb_app in Hs. simpl in Hs. rewrite Hc in Hs.
  rewrite orb_true_r in Hs. discriminate.
Qed.

(** X5.  A handle of four or more characters without separator has
    exactly four variants: itself, and its two halves (cut at half its
    length, rounded down) joined by a dot, a dash and an underscore, in
    that order. *)
Theorem midpoint_split_variants (base : str) :
  re_search_sep base = false ->
  4 <= length base ->
  generate_variants base
  = [ base;
      firstn (length base / 2) base ++ py "." ++ skipn (length base / 2) base;
      firstn (length base / 2) base ++ py "-" ++ skipn (length base / 2) base;
      firstn (length base / 2) base ++ py "_" ++ skipn (length base / 2) base ].
Proof.
  intros Hsep Hlen. unfold generate_variants, candidates, parts.
  rewrite Hsep.
  destruct (Nat.leb 4 (length base)) eqn:E; [| apply Nat.leb_gt in E; lia].
  cbv zeta. cbn [join].
  set (a := firstn (length base / 2) base).
  set (b := skipn (length base / 2) base).
  assert (Hab : a ++ b = base) by apply firstn_skipn.
  assert (Hne : base <> []) by (destruct base; [simpl in Hlen; lia | discriminate]).
  change (py "" ++ b) with b. rewrite Hab.
  change (py ".") with [chr "."]. change (py "-") with [chr "-"].
  change (py "_") with [chr "_"]. cbn [app].
  rewrite dedup_step_new by (auto; intros []).
  rewrite dedup_step_old by (left; reflexivity).
  rewrite dedup_step_new.
  2: { destruct a; discriminate. }
  2: { intros [H | []]. symmetry in H. revert H.
       apply separator_free_neq; [reflexivity | exact Hsep]. }
  rewrite dedup_step_new.
  2: { destruct a; discriminate. }
  2: { intros [H | [H | []]].
       - apply app_inv_head in H. discriminate.
       - symmetry in H. revert H.
         apply separator_free_neq; [reflexivity | exact Hsep]. }
  rewrite dedup_step_new.
  2: { destruct a; discriminate. }
  2: { intros [H | [H | [H | []]]].
       - apply app_inv_head in H. discriminate.
       - apply app_inv_head in H. discriminate.
       - symmetry in H. revert H.
         apply separator_free_neq; [reflexivity | exact Hsep]. }
  reflexivity.
Qed.

Lemma midpoint_split_variants_witness :
  generate_variants (py "abcde")
  = [py "abcde"; py "ab.cde"; py "ab-cde"; py "ab_cde"].
Proof.
  apply (@midpoint_split_variants (py "abcde")).
  - reflexivity.
  - vm_compute. lia.
Defined.

Lemma strip_separators_app (a b : str) :
  strip_separators (a ++ b) = strip_separators a ++ strip_separators b.
Proof. apply filter_app. Qed.

Lemma strip_separators_join (sep : str) (ps : list str) :
  strip_separators sep = [] ->
  strip_separators (join sep ps) = concat (map strip_separators ps).
Proof.
  intros Hsep. induction ps as [|p ps IH]; [reflexivity|].
  destruct ps as [|q ps].
  - simpl. rewrite app_nil_r. reflexivity.
  - change (join sep (p :: q :: ps)) with (p ++ sep ++ join sep (q :: ps)).
    rewrite !strip_separators_app, Hsep, IH. reflexivity.
Qed.

Lemma strip_separators_split (s : str) :
  strip_separators (fst (split_sep s))
    ++ concat (map strip_separators (snd (split_sep s)))
  = strip_separators s.
Proof.
  induction s as [|c s IH]; [reflexivity|].
  cbn [split_sep]. destruct (split_sep s) as [p ps]. cbn [fst snd] in IH.
  unfold strip_separators in *. cbn [filter].
  destruct (is_separator c) eqn:E;
    cbn [fst snd map concat filter app]; rewrite ?E; cbn [negb app];
    rewrite <- IH; reflexivity.
Qed.

Lemma strip_separators_parts (base : str) :
  concat (map strip_separators (parts base)) = strip_separators base.
Proof.
  unfold parts. destruct (re_search_sep base).
  - unfold re_split_sep. pose proof (strip_separators_split base) as H.
    destruct (split_sep base) as [p ps]. exact H.
  - destruct (Nat.leb 4 (length base)).
    + simpl. rewrite app_nil_r, <- strip_separators_app, firstn_skipn.
      reflexivity.
    + simpl. apply app_nil_r.
Qed.

(** X6.  Variants differ from the handle only in separators: taking the
    characters [.], [_] and [-] out of any variant gives the same text as
    taking them out of the handle. *)
Theorem variants_keep_letters (base v : str) :
  In v (generate_variants base) ->
  strip_separators v = strip_separators base.
Proof.
  unfold generate_variants. rewrite dedup_loop_In by tauto.
  intros [[] | [Hin _]]. unfold candidates in Hin.
  destruct Hin as [<- | Hin]; [reflexivity|].
  repeat (destruct Hin as [<- | Hin];
          [rewrite strip_separators_join by reflexivity;
           apply strip_separators_parts|]).
  destruct Hin.
Qed.

Lemma variants_keep_letters_witness :
  strip_separators (py "john-doe") = strip_separators (py "john.doe").
Proof.
  apply variants_keep_letters. vm_compute. auto.
Defined.

(* ================================================================== *)
(** * More on the existence classifier *)
(* ================================================================== *)

(** Unfold [check_profile] down to its probe and split on the platform
    tests. *)
Ltac open_check :=
  unfold check_profile, probe_request, try_except_RequestException, bind,
         http_get, lift, ret;
  let Hig := fresh "Hig" in
  let Htw := fresh "Htw" in
  destruct (str_eqb _ (py "instagram")) eqn:Hig;
  [| destruct (str_eqb _ (py "twitter")) eqn:Htw].

(** Split on every test the goal still branches on. *)
Ltac case_tests :=
  repeat (cbv beta iota zeta;
          match goal with
          | |- context [if ?b then _ else _] => destruct b eqn:?
          | |- context [match resp_json ?r with _ => _ end] =>
              destruct (resp_json r) eqn:?
          | |- context [match py_get ?v ?k ?d with _ => _ end] =>
              let H := fresh "Hget" in
              destruct (py_get v k d) as [? | [? | |]] eqn:H;
              [ | exfalso; destruct v; cbv [py_get] in H; discriminate H
                | | exfalso; destruct v; cbv [py_get] in H; discriminate H ]
          end);
  cbv beta iota zeta.


(** Close a goal in which one platform name passed two different tests. *)
Ltac name_clash :=
  match goal with
  | H1 : str_eqb ?s ?a = true, H2 : str_eqb ?s ?b = true |- _ =>
      apply str_eqb_eq in H1; apply str_eqb_eq in H2;
      rewrite H1 in H2; vm_compute in H2; discriminate H2
  end.

Lemma str_eqb_eq_false (a b : str) : a <> b -> str_eqb a b = false.
Proof.
  intros H. destruct (str_eqb a b) eqn:E; [| reflexivity].
  apply str_eqb_eq in E. contradiction.
Qed.


Section ClassifierFacts.

Variable lower : str -> str.
Variable World : Type.
Variable requests_get : Request -> World -> probe * World.

Local Notation "'check'" := (check_profile lower requests_get).



(** X9.  A "not found" text of the platform on the page is answered
    [NotExists] whatever the status, 200 included. *)
Theorem negative_marker_wins
  (service username url : str) (timeout : float) (w w' : World)
  (resp : Response) :
  requests_get (probe_request service username url timeout) w
    = (inl resp, w') ->
  negative_marker_matches lower service resp = true ->
  check service username url timeout w
    = (Return (false, Some (resp_status_code resp), None), w').
Proof.
  intros Hprobe. revert Hprobe. unfold negative_marker_matches.
  open_check; intros Hprobe; rewrite Hprobe; cbv beta iota zeta.
  - apply str_eqb_eq in Hig. subst service.
    change (str_eqb (py "instagram") (py "twitter")) with false.
    change (str_eqb (py "instagram") (py "reddit")) with false.
    change (str_eqb (py "instagram") (py "tiktok")) with false.
    cbv iota. discriminate.
  - case_tests; intros Hneg;
      solve [reflexivity | cbn [orb] in Hneg; discriminate].
  - case_tests; intros Hneg;
      solve [reflexivity | cbn [orb] in Hneg; discriminate | name_clash].
Qed.



End ClassifierFacts.

Section ClassifierEffects.

Variable lower : str -> str.
Variable World : Type.
Variable requests_get : Request -> World -> probe * World.

Local Notation "'check'" := (check_profile lower requests_get).

(** What the Instagram branch makes of a 200 response that carries a
    JSON value. *)
Lemma instagram_json_outcome
  (username url : str) (timeout : float) (w w' : World) (resp : Response)
  (data : json) :
  requests_get (probe_request (py "instagram") username url timeout) w
    = (inl resp, w') ->
  resp_status_code resp = 200%Z ->
  resp_json resp = JsonValue data ->
  check (py "instagram") username url timeout w
  = (if bad_shape data then Raise AttributeError
     else Return (py_truthy (user_entry data), Some 200%Z, None), w').
Proof.
  intros Hprobe H200 Hjson. revert Hprobe.
  open_check; try discriminate; intros Hprobe; rewrite Hprobe.
  cbv beta iota zeta. rewrite H200, Hjson.
  change (Z.eqb 200 200) with true. cbv beta iota zeta.
  unfold bad_shape, user_entry, py_get.
  destruct data as [ | | | | | | items]; try reflexivity.
  destruct (dict_get (py "data") items) as [[ | | | | | | inner] |];
    try reflexivity.
  - destruct (dict_get (py "user") inner) as [u |]; [| reflexivity].
    destruct (py_truthy u); reflexivity.
Qed.

(** X12.  The status in the answer is the status of the response; it is
    absent exactly when the probe failed in transport, and then the
    answer is negative and its note is the text of the error. *)
Theorem answer_status_is_response_status
  (service username url : str) (timeout : float) (w w' : World)
  (answer : bool) (status : option Z) (note : option str) :
  check service username url timeout w
    = (Return (answer, status, note), w') ->
  match fst (requests_get (probe_request service username url timeout) w) with
  | inl resp => status = Some (resp_status_code resp)
  | inr msg => answer = false /\ status = None /\ note = Some msg
  end.
Proof.
  destruct (requests_get (probe_request service username url timeout) w)
    as [[resp | msg] w1] eqn:Hprobe; cbn [fst].
  - revert Hprobe. open_check; intros Hprobe; rewrite Hprobe;
      case_tests; intros E; inversion E; reflexivity.
  - rewrite (@check_profile_transport_failure _ _ _ _ _ _ _ _ _ _ Hprobe).
    intros E; inversion E. auto.
Qed.

(** X13.  [check_profile] sends exactly one request: the world it leaves
    is the world its single probe left, whether it returns or raises. *)
Theorem one_request_per_check
  (service username url : str) (timeout : float) (w : World) :
  snd (check service username url timeout w)
  = snd (requests_get (probe_request service username url timeout) w).
Proof.
  destruct (requests_get (probe_request service username url timeout) w)
    as [[resp | msg] w1] eqn:Hprobe; cbn [snd].
  - revert Hprobe. open_check; intros Hprobe; rewrite Hprobe;
      case_tests; reflexivity.
  - rewrite (@check_profile_transport_failure _ _ _ _ _ _ _ _ _ _ Hprobe).
    reflexivity.
Qed.

(** What the Instagram branch makes of a 200 response whose body the
    decoder cannot descend. *)
Lemma instagram_recursion_outcome
  (username url : str) (timeout : float) (w w' : World) (resp : Response) :
  requests_get (probe_request (py "instagram") username url timeout) w
    = (inl resp, w') ->
  resp_status_code resp = 200%Z ->
  resp_json resp = JsonRecursionError ->
  check (py "instagram") username url timeout w = (Raise RecursionError, w').
Proof.
  intros Hprobe H200 Hjson. revert Hprobe.
  open_check; try discriminate; intros Hprobe; rewrite Hprobe.
  cbv beta iota zeta. rewrite H200, Hjson. reflexivity.
Qed.

(** Where an exception of [check_profile] comes from. *)
Lemma check_profile_raise_inv
  (service username url : str) (timeout : float) (w : World) (e : exn) :
  fst (check service username url timeout w) = Raise e ->
  service = py "instagram" /\
  exists resp,
    fst (requests_get (probe_request service username url timeout) w)
      = inl resp /\
    resp_status_code resp = 200%Z /\
    ((resp_json resp = JsonRecursionError /\ e = RecursionError) \/
     (exists data,
         resp_json resp = JsonValue data /\ bad_shape data = true /\
         e = AttributeError)).
Proof.
  destruct (requests_get (probe_request service username url timeout) w)
    as [[resp | msg] w1] eqn:Hprobe; cbn [fst].
  - destruct (str_eqb service (py "instagram")) eqn:Hig.
    + apply str_eqb_eq in Hig. subst service.
      destruct (Z.eqb (resp_status_code resp) 200) eqn:H200.
      * apply Z.eqb_eq in H200.
        destruct (resp_json resp) as [data | |] eqn:Hjson.
        -- rewrite (instagram_json_outcome Hprobe H200 Hjson).
           destruct (bad_shape data) eqn:Hbad; cbn [fst]; intros E;
             inversion E. split; [reflexivity|]. exists resp.
           repeat split; try assumption. right. exists data. auto.
        -- revert Hprobe. open_check; try discriminate.
           intros Hprobe; rewrite Hprobe. cbv beta iota zeta.
           rewrite H200, Hjson. discriminate.
        -- rewrite (instagram_recursion_outcome Hprobe H200 Hjson).
           cbn [fst]. intros E; inversion E. split; [reflexivity|].
           exists resp. repeat split; try assumption. left. auto.
      * revert Hprobe. open_check; try discriminate.
        intros Hprobe; rewrite Hprobe. cbv beta iota zeta.
        rewrite H200. case_tests; discriminate.
    + revert Hprobe. open_check; try discriminate;
        intros Hprobe; rewrite Hprobe; case_tests; discriminate.
  - rewrite (@check_profile_transport_failure _ _ _ _ _ _ _ _ _ _ Hprobe).
    discriminate.
Qed.


(** A check returns when the [resp.json()] of its probe ends well. *)
Lemma check_profile_returns
  (service username url : str) (timeout : float) (w : World) :
  (forall resp,
      fst (requests_get (probe_request service username url timeout) w)
        = inl resp ->
      well_decoded (resp_json resp) = true) ->
  exists r w', check service username url timeout w = (Return r, w').
Proof.
  intros Hgood.
  destruct (check service username url timeout w) as [[r | e] w'] eqn:E.
  - eauto.
  - exfalso.
    assert (Hraise : fst (check service username url timeout w) = Raise e)
      by (rewrite E; reflexivity).
    apply check_profile_raise_inv in Hraise.
    destruct Hraise as [_ [resp [Hp [_ Hcase]]]].
    specialize (Hgood resp Hp). unfold well_decoded in Hgood.
    destruct Hcase as [[Hjson _] | [data [Hjson [Hbad _]]]];
      rewrite Hjson in Hgood; [| rewrite Hbad in Hgood]; discriminate.
Qed.

(** X15.  On Instagram, a 200 response whose JSON value has the expected
    shape is answered by the truth value of its ["user"] entry, with
    status 200 and no note: a missing ["data"] or ["user"] entry, a null
    user and an empty user object are all [NotExists]. *)
Theorem instagram_answer_is_user_truth_value
  (username url : str) (timeout : float) (w w' : World) (resp : Response)
  (data : json) :
  requests_get (probe_request (py "instagram") username url timeout) w
    = (inl resp, w') ->
  resp_status_code resp = 200%Z ->
  resp_json resp = JsonValue data ->
  bad_shape data = false ->
  check (py "instagram") username url timeout w
  = (Return (py_truthy (user_entry data), Some 200%Z, None), w').
Proof.
  intros Hprobe H200 Hjson Hshape.
  rewrite (instagram_json_outcome Hprobe H200 Hjson), Hshape.
  reflexivity.
Qed.

End ClassifierEffects.

(* ================================================================== *)
(** * More on the scan *)
(* ================================================================== *)

Lemma generate_variants_cons (base : str) :
  base <> [] -> exists rest, generate_variants base = base :: rest.
Proof.
  intros Hne. unfold generate_variants, candidates.
  rewrite dedup_step_new by (auto; intros []).
  match goal with
  | |- context [dedup_loop ?cs ?vs ?seen] =>
      destruct (dedup_loop_extends cs vs seen) as [more [E _]]
  end.
  rewrite E. eexists. reflexivity.
Qed.

(** In a logging world a check adds its one request to the log. *)
Lemma check_profile_log
  (lower : str -> str) (answer : Request -> probe)
  (service username url : str) (timeout : float) (log : list Request) :
  snd (check_profile lower (logging answer) service username url timeout log)
  = log ++ [probe_request service username url timeout].
Proof.
  unfold logging. open_check;
    match goal with
    | |- context [answer ?req] => destruct (answer req)
    end; case_tests; reflexivity.
Qed.

Lemma check_services_log
  (lower : str -> str) (answer : Request -> probe)
  (items : dict str str) (variant : str) :
  forall (results r : dict str UsernameCheckResult) (log log' : list Request),
    check_services lower (logging answer) items variant results log
      = (Return r, log') ->
    log' = log ++ map (fun item =>
                         probe_request (fst item) variant
                           (format_username (snd item) variant) 8%float)
                      items.
Proof.
  induction items as [|[s template] items IH]; intros results r log log' Hrun.
  - inversion Hrun. rewrite app_nil_r. reflexivity.
  - cbn [check_services] in Hrun. unfold bind in Hrun.
    pose proof (check_profile_log lower answer s variant
                  (format_username template variant) 8%float log) as Hlog.
    destruct (check_profile lower (logging answer) s variant
                (format_username template variant) 8%float log)
      as [[[[e st] er] | ex] log1]; [| discriminate].
    cbn [snd] in Hlog. subst log1.
    apply IH in Hrun. rewrite Hrun, <- app_assoc. reflexivity.
Qed.

Lemma scan_variants_log
  (lower : str -> str) (answer : Request -> probe) (variants : list str) :
  forall (all_results t : ResultTable) (log log' : list Request),
    scan_variants lower (logging answer) variants all_results log
      = (Return t, log') ->
    log' = log ++ scan_requests variants.
Proof.
  induction variants as [|v variants IH]; intros all_results t log log' Hrun.
  - inversion Hrun. rewrite app_nil_r. reflexivity.
  - cbn [scan_variants] in Hrun. unfold bind in Hrun.
    destruct (check_username_single lower (logging answer) v log)
      as [[r | ex] log1] eqn:Hrow; [| discriminate].
    apply check_services_log in Hrow. apply IH in Hrun.
    rewrite Hrun, Hrow, <- app_assoc. reflexivity.
Qed.

Lemma scan_requests_length (variants : list str) :
  length (scan_requests variants) = (length SERVICES * length variants)%nat.
Proof.
  induction variants as [|v variants IH].
  - rewrite Nat.mul_0_r. reflexivity.
  - unfold scan_requests in *. cbn [flat_map length].
    rewrite length_app, IH. unfold row_requests. rewrite length_map. lia.
Qed.

(** X16.  A completed scan probes every (variant, platform) pair once,
    variants in generator order and, for each, platforms in registry
    order: the requests it sends are exactly [scan_requests], one per
    pair and no more. *)
Theorem scan_sends_one_request_per_pair
  (lower : str -> str) (answer : Request -> probe) (base : str)
  (log log' : list Request) (table : ResultTable) :
  run_scan_table lower (logging answer) base log
    = (Return (Some table), log') ->
  log' = log ++ scan_requests (generate_variants base) /\
  length log'
  = (length log + length SERVICES * length (generate_variants base))%nat.
Proof.
  unfold run_scan_table. destruct (negb (str_truthy base)); [discriminate|].
  unfold bind.
  destruct (scan_variants lower (logging answer) (generate_variants base)
              [] log) as [[t | ex] log1] eqn:Hscan; [| discriminate].
  intros E; inversion E; subst t log1.
  apply scan_variants_log in Hscan. subst log'.
  split; [reflexivity|].
  rewrite length_app, scan_requests_length. reflexivity.
Qed.

Lemma scan_sends_one_request_per_pair_witness :
  exists table log',
    run_scan_table ascii_lower
      (logging (fun _ => inr (py "Connection refused"))) (py "abc") []
    = (Return (Some table), log') /\
    log' = [] ++ scan_requests (generate_variants (py "abc")) /\
    length log' = 10%nat.
Proof.
  eexists. eexists. split; [vm_compute; reflexivity|].
  match goal with
  | |- ?l = _ /\ _ =>
      destruct (@scan_sends_one_request_per_pair ascii_lower
                  (fun _ => inr (py "Connection refused")) (py "abc")
                  [] l _ ltac:(vm_compute; reflexivity))
        as [Hlog Hlen]
  end.
  split; [exact Hlog | reflexivity].
Defined.

Lemma Forall_dict_set (V : Type) (Q : str * V -> Prop) (k : str) (v : V)
  (d : dict str V) :
  Forall Q d -> Q (k, v) -> Forall Q (dict_set k v d).
Proof.
  intros Hd Hv. induction Hd as [|[k' v'] d Hx Hd IH]; simpl.
  - constructor; [exact Hv | constructor].
  - destruct (str_eqb k k') eqn:E.
    + apply str_eqb_eq in E. subst k'. constructor; assumption.
    + constructor; assumption.
Qed.

Lemma dict_get_Some_In (V : Type) (k : str) (v : V) (d : dict str V) :
  dict_get k d = Some v -> In (k, v) d.
Proof.
  induction d as [|[k' v'] d IH]; simpl; [discriminate|].
  destruct (str_eqb k k') eqn:E.
  - apply str_eqb_eq in E. intros H; inversion H; subst. left; reflexivity.
  - intros H. right. apply IH, H.
Qed.

Section ScanFacts.

Variable lower : str -> str.
Variable World : Type.
Variable requests_get : Request -> World -> probe * World.

(** A property of the stored records that holds of every answer of
    [check_profile] holds of every cell of the rows the scan builds. *)
Lemma check_services_Forall
  (Q : str * UsernameCheckResult -> Prop) (items : dict str str) (v : str) :
  (forall s template a w w1,
      In (s, template) items ->
      check_profile lower requests_get s v (format_username template v)
        8%float w = (Return a, w1) ->
      Q (stored s v template a)) ->
  forall (results r : dict str UsernameCheckResult) (w w' : World),
    Forall Q results ->
    check_services lower requests_get items v results w = (Return r, w') ->
    Forall Q r.
Proof.
  induction items as [|[s template] items IH]; intros HQ results r w w' Hres Hrun.
  - inversion Hrun; subst. exact Hres.
  - cbn [check_services] in Hrun. unfold bind in Hrun.
    destruct (check_profile lower requests_get s v
                (format_username template v) 8%float w)
      as [[[[e st] er] | ex] w1] eqn:Hcheck; [| discriminate].
    eapply IH; [| | exact Hrun].
    + intros s' t' a w2 w3 Hin. apply HQ. right. exact Hin.
    + apply Forall_dict_set; [exact Hres|].
      apply (HQ s template (e, st, er) w w1); [left; reflexivity | exact Hcheck].
Qed.

Lemma scan_variants_Forall
  (Q : str -> str * UsernameCheckResult -> Prop) (variants : list str) :
  (forall v s template a w w1,
      In (s, template) SERVICES ->
      check_profile lower requests_get s v (format_username template v)
        8%float w = (Return a, w1) ->
      Q v (stored s v template a)) ->
  forall (all_results t : ResultTable) (w w' : World),
    Forall (fun row => Forall (Q (fst row)) (snd row)) all_results ->
    scan_variants lower requests_get variants all_results w = (Return t, w') ->
    Forall (fun row => Forall (Q (fst row)) (snd row)) t.
Proof.
  intros HQ. induction variants as [|v variants IH];
    intros all_results t w w' Hall Hrun.
  - inversion Hrun; subst. exact Hall.
  - cbn [scan_variants] in Hrun. unfold bind in Hrun.
    destruct (check_username_single lower requests_get v w)
      as [[r | ex] w1] eqn:Hrow; [| discriminate].
    eapply IH; [| exact Hrun].
    apply (@Forall_dict_set _
             (fun row : str * dict str UsernameCheckResult =>
                Forall (Q (fst row)) (snd row))); [exact Hall|].
    cbn [fst snd].
    eapply check_services_Forall; [| constructor | exact Hrow].
    intros s template a w2 w3. apply HQ.
Qed.

Lemma run_scan_table_Forall
  (Q : str -> str * UsernameCheckResult -> Prop) (base : str)
  (w w' : World) (table : ResultTable) :
  (forall v s template a w w1,
      In (s, template) SERVICES ->
      check_profile lower requests_get s v (format_username template v)
        8%float w = (Return a, w1) ->
      Q v (stored s v template a)) ->
  run_scan_table lower requests_get base w = (Return (Some table), w') ->
  Forall (fun row => Forall (Q (fst row)) (snd row)) table.
Proof.
  intros HQ. unfold run_scan_table.
  destruct (negb (str_truthy base)); [discriminate|].
  unfold bind.
  destruct (scan_variants lower requests_get (generate_variants base) [] w)
    as [[t | ex] w1] eqn:Hscan; [| discriminate].
  intros E; inversion E; subst t w1.
  eapply scan_variants_Forall; [exact HQ | constructor | exact Hscan].
Qed.

Lemma table_get_In (table : ResultTable) (v s : str)
  (r : UsernameCheckResult) :
  table_get table v s = Some r ->
  exists row, In (v, row) table /\ In (s, r) row.
Proof.
  unfold table_get. destruct (dict_get v table) as [row |] eqn:Hrow;
    [| discriminate].
  intros Hcell. exists row.
  split; apply dict_get_Some_In; assumption.
Qed.

(** The loops return when every check does. *)
Lemma check_services_returns (items : dict str str) (v : str) :
  (forall s template w,
      In (s, template) items ->
      exists a w1,
        check_profile lower requests_get s v (format_username template v)
          8%float w = (Return a, w1)) ->
  forall (results : dict str UsernameCheckResult) (w : World),
  exists r w',
    check_services lower requests_get items v results w = (Return r, w').
Proof.
  induction items as [|[s template] items IH]; intros Hret results w.
  - eexists. eexists. reflexivity.
  - cbn [check_services]. unfold bind.
    destruct (Hret s template w (or_introl eq_refl)) as [[[e st] er] [w1 Hc]].
    rewrite Hc. apply IH. intros s' t' w2 Hin. apply Hret. right. exact Hin.
Qed.

Lemma scan_variants_returns (variants : list str) :
  (forall v s template w,
      In (s, template) SERVICES ->
      exists a w1,
        check_profile lower requests_get s v (format_username template v)
          8%float w = (Return a, w1)) ->
  forall (all_results : ResultTable) (w : World),
  exists t w',
    scan_variants lower requests_get variants all_results w = (Return t, w').
Proof.
  intros Hret. induction variants as [|v variants IH]; intros all_results w.
  - eexists. eexists. reflexivity.
  - cbn [scan_variants]. unfold bind.
    destruct (check_services_returns SERVICES v (Hret v) [] w)
      as [r [w1 Hrow]].
    unfold check_username_single. rewrite Hrow. apply IH.
Qed.


End ScanFacts.

Lemma Forall_table_results (P : UsernameCheckResult -> Prop)
  (t : ResultTable) :
  Forall (fun row : str * dict str UsernameCheckResult =>
            Forall (fun cell => P (snd cell)) (snd row)) t ->
  Forall P (table_results t).
Proof.
  induction 1 as [|[v row] t Hrow _ IH]; [constructor|].
  unfold table_results in *. cbn [flat_map snd] in *.
  apply Forall_app. split; [| exact IH].
  apply Forall_map. exact Hrow.
Qed.

Section ScanOutcomes.

Variable lower : str -> str.
Variable World : Type.
Variable requests_get : Request -> World -> probe * World.

(** X18.  With the network down the scan still completes: when every
    probe fails in transport, the scan of a non-empty handle returns a
    table, and every result in it is negative, has no status and carries
    an error text. *)
Theorem dead_network_scan (base : str) (w : World) :
  (forall req w0, exists msg, fst (requests_get req w0) = inr msg) ->
  base <> [] ->
  exists table w',
    run_scan_table lower requests_get base w = (Return (Some table), w') /\
    Forall (fun r => exists_ r = false /\ http_status r = None /\
                     exists msg, error r = Some msg)
           (table_results table).
Proof.
  intros Hdead Hne.
  assert (Hret : exists t w',
             scan_variants lower requests_get (generate_variants base) [] w
             = (Return t, w')).
  { apply scan_variants_returns. intros v s template w0 _.
    apply check_profile_returns. intros resp Hp.
    destruct (Hdead (probe_request s v (format_username template v) 8%float)
                w0) as [msg Hmsg].
    rewrite Hmsg in Hp. discriminate. }
  destruct Hret as [t [w' Hscan]].
  assert (Hrun : run_scan_table lower requests_get base w
                 = (Return (Some t), w')).
  { unfold run_scan_table. destruct base; [congruence|].
    cbn [str_truthy negb]. unfold bind. rewrite Hscan. reflexivity. }
  exists t, w'. split; [exact Hrun|].
  apply Forall_table_results.
  apply (@run_scan_table_Forall lower World requests_get
           (fun _ cell => exists_ (snd cell) = false /\
                          http_status (snd cell) = None /\
                          exists msg, error (snd cell) = Some msg)
           base w w' t); [| exact Hrun].
  intros v s template a w0 w1 _ Hcheck.
  destruct (requests_get
              (probe_request s v (format_username template v) 8%float) w0)
    as [p w2] eqn:Hp.
  destruct (Hdead (probe_request s v (format_username template v) 8%float)
              w0) as [msg Hmsg].
  rewrite Hp in Hmsg. cbn [fst] in Hmsg. subst p.
  rewrite (@check_profile_transport_failure _ _ _ _ _ _ _ _ _ _ Hp) in Hcheck.
  inversion Hcheck; subst. cbn. eauto.
Qed.

(** X19.  A misshapen Instagram answer aborts the whole scan: when the
    first probe (Instagram, for the handle itself) brings a 200 response
    whose JSON value has a bad shape, [run_scan] raises [AttributeError]
    after that single request and builds no table. *)
Theorem scan_aborts_on_misshapen_json
  (base : str) (w w' : World) (resp : Response) (data : json) :
  base <> [] ->
  requests_get
    (probe_request (py "instagram") base
       (format_username (py "https://www.instagram.com/{username}/") base)
       8%float) w
    = (inl resp, w') ->
  resp_status_code resp = 200%Z ->
  resp_json resp = JsonValue data ->
  bad_shape data = true ->
  run_scan_table lower requests_get base w = (Raise AttributeError, w').
Proof.
  intros Hne Hprobe H200 Hjson Hbad.
  unfold run_scan_table. destruct (generate_variants_cons Hne) as [rest Hv].
  destruct base as [|c base]; [congruence|].
  cbn [str_truthy negb]. rewrite Hv.
  cbn [scan_variants]. unfold check_username_single at 1.
  unfold SERVICES. cbn [check_services]. unfold bind.
  rewrite (@instagram_json_outcome lower World requests_get _ _ _ _ _ _ _
             Hprobe H200 Hjson), Hbad.
  reflexivity.
Qed.

(** X20.  After a completed scan, the result stored under a variant and
    a platform names that platform and that variant, its url is the
    platform's template filled with the variant, and its three answer
    fields are what [check_profile] returned for that platform, variant
    and url. *)
Theorem stored_result_is_the_answer
  (base : str) (w w' : World) (table : ResultTable) (v s : str)
  (r : UsernameCheckResult) :
  run_scan_table lower requests_get base w = (Return (Some table), w') ->
  table_get table v s = Some r ->
  exists template,
    In (s, template) SERVICES /\
    service r = s /\ username r = v /\
    url r = format_username template v /\
    exists w0 w1,
      check_profile lower requests_get s v (url r) 8%float w0
      = (Return (exists_ r, http_status r, error r), w1).
Proof.
  intros Hrun Hget.
  apply table_get_In in Hget. destruct Hget as [row [Hrow Hcell]].
  pose proof
    (@run_scan_table_Forall lower World requests_get
       (fun v cell =>
          exists template,
            In (fst cell, template) SERVICES /\
            service (snd cell) = fst cell /\ username (snd cell) = v /\
            url (snd cell) = format_username template v /\
            exists w0 w1,
              check_profile lower requests_get (fst cell) v
                (url (snd cell)) 8%float w0
              = (Return (exists_ (snd cell), http_status (snd cell),
                         error (snd cell)), w1))
       base w w' table) as Hall.
  match type of Hall with
  | ?P -> _ => assert (HQ : P)
  end.
  { intros v0 s0 template [[e st] er] w0 w1 Hin Hcheck.
    exists template. unfold stored.
    cbn [fst snd service username url exists_ http_status error].
    repeat split; try assumption. exists w0, w1. exact Hcheck. }
  specialize (Hall HQ Hrun).
  rewrite Forall_forall in Hall. specialize (Hall _ Hrow).
  cbn [fst snd] in Hall. rewrite Forall_forall in Hall.
  exact (Hall _ Hcell).
Qed.

End ScanOutcomes.

(* ================================================================== *)
(** * The url of a probe *)
(* ================================================================== *)

Lemma startswith_placeholder (c : char) (t : str) :
  c <> 123%N -> startswith (c :: t) (py "{username}") = false.
Proof.
  intros Hc. change (py "{username}") with (123%N :: py "username}").
  cbn [startswith]. apply N.eqb_neq in Hc. rewrite N.eqb_sym, Hc.
  reflexivity.
Qed.

Lemma format_from_plain (s rest username : str) :
  (forall c, In c s -> c <> 123%N) ->
  format_from 0 (s ++ rest) username = s ++ format_from 0 rest username.
Proof.
  induction s as [|c s IH]; intros Hplain; [reflexivity|].
  cbn [app format_from].
  rewrite startswith_placeholder by (apply Hplain; left; reflexivity).
  rewrite IH by (intros x Hx; apply Hplain; right; exact Hx).
  reflexivity.
Qed.

Lemma format_from_placeholder (rest username : str) :
  format_from 0 (py "{username}" ++ rest) username
  = username ++ format_from 0 rest username.
Proof. destruct rest; reflexivity. Qed.

(** X21.  Filling a template puts the handle, verbatim, in the place of
    the one [{username}] field: for a template made of a prefix, the
    field and a suffix, where prefix and suffix hold no brace, the url is
    prefix, handle, suffix -- whatever characters the handle contains. *)
Theorem format_username_substitutes (prefix suffix username : str) :
  (forall c, In c prefix -> c <> 123%N /\ c <> 125%N) ->
  (forall c, In c suffix -> c <> 123%N /\ c <> 125%N) ->
  format_username (prefix ++ py "{username}" ++ suffix) username
  = prefix ++ username ++ suffix.
Proof.
  intros Hpre Hsuf. unfold format_username.
  rewrite format_from_plain by (intros c Hc; apply Hpre, Hc).
  rewrite format_from_placeholder.
  rewrite <- (app_nil_r suffix) at 1.
  rewrite format_from_plain by (intros c Hc; apply Hsuf, Hc).
  cbn [format_from]. rewrite app_nil_r. reflexivity.
Qed.

Lemma format_username_substitutes_witness :
  format_username (py "https://www.instagram.com/" ++ py "{username}" ++ py "/")
    (py "{john}")
  = py "https://www.instagram.com/" ++ py "{john}" ++ py "/".
Proof.
  apply format_username_substitutes;
    intros c Hc; vm_compute in Hc;
    repeat (destruct Hc as [<- | Hc]; [split; discriminate|]);
    destruct Hc.
Defined.

(* ================================================================== *)
(** * The report *)
(* ================================================================== *)

Section ReportFacts.

Variable title : str -> str.

(** The two loops of [print_results], in closed form. *)
Lemma print_services_closed (items : dict str UsernameCheckResult) :
  forall (any_found : bool) (out : list str),
    print_services title items any_found out
    = (any_found || existsb (fun cell => exists_ (snd cell)) items,
       out ++ map (cell_line title) items).
Proof.
  induction items as [|[s r] items IH]; intros any_found out.
  - cbn. rewrite orb_false_r, app_nil_r. reflexivity.
  - cbn [print_services existsb map snd fst].
    change (cell_line title (s, r))
      with (if exists_ r
            then found_line (title (replace_underscore s)) (url r)
            else not_found_line (title (replace_underscore s))).
    destruct (exists_ r); rewrite IH, <- app_assoc.
    + rewrite orb_true_r. reflexivity.
    + reflexivity.
Qed.

Lemma print_variants_closed (t : dict str (dict str UsernameCheckResult)) :
  forall out : list str,
    print_variants title t out = out ++ flat_map (row_block title) t.
Proof.
  induction t as [|[v row] t IH]; intros out.
  - cbn. rewrite app_nil_r. reflexivity.
  - cbn [print_variants flat_map]. rewrite print_services_closed.
    cbn [orb]. rewrite IH. unfold row_block. cbn [fst snd].
    destruct (existsb (fun cell => exists_ (snd cell)) row); cbn [negb];
      rewrite <- ?app_assoc; reflexivity.
Qed.

Lemma print_results_closed (base : str)
  (t : dict str (dict str UsernameCheckResult)) :
  print_results title base t
  = [ LF ++ py "======================================";
      py "     OSINT RESULTS FOR BASE: " ++ base;
      py "======================================" ++ LF ]
    ++ flat_map (row_block title) t
    ++ [py "Scan complete." ++ LF].
Proof.
  unfold print_results. rewrite print_variants_closed, <- app_assoc.
  reflexivity.
Qed.

Lemma filter_none (A : Type) (f : A -> bool) (l : list A) :
  (forall x, In x l -> f x = false) -> filter f l = [].
Proof.
  induction l as [|x l IH]; intros H; [reflexivity|].
  cbn [filter]. rewrite (H x (or_introl eq_refl)).
  apply IH. intros y Hy. apply H. right. exact Hy.
Qed.

Lemma filter_all (A : Type) (f : A -> bool) (l : list A) :
  (forall x, In x l -> f x = true) -> filter f l = l.
Proof.
  induction l as [|x l IH]; intros H; [reflexivity|].
  cbn [filter]. rewrite (H x (or_introl eq_refl)). f_equal.
  apply IH. intros y Hy. apply H. right. exact Hy.
Qed.

Lemma cell_line_not_no_profiles (cell : str * UsernameCheckResult) :
  str_eqb no_profiles_line (cell_line title cell) = false.
Proof.
  apply str_eqb_eq_false. unfold cell_line.
  destruct (exists_ (snd cell)); intros H; vm_compute in H; discriminate H.
Qed.

Lemma blocks_count_empty_variants
  (t : dict str (dict str UsernameCheckResult)) :
  length (filter (str_eqb no_profiles_line) (flat_map (row_block title) t))
  = length (filter (fun row =>
                      negb (existsb (fun cell => exists_ (snd cell))
                                    (snd row))) t).
Proof.
  induction t as [|[v row] t IH]; [reflexivity|].
  cbn [flat_map filter snd]. rewrite filter_app, length_app, IH.
  unfold row_block. cbn [fst snd]. rewrite !filter_app, !length_app.
  rewrite (@filter_none _ (str_eqb no_profiles_line)
             (map (cell_line title) row)).
  2: { intros x Hx. apply in_map_iff in Hx. destruct Hx as [cell [<- _]].
       apply cell_line_not_no_profiles. }
  replace (filter (str_eqb no_profiles_line)
             [py "--- Username variant: " ++ v ++ py " ---"])
    with (@nil str) by reflexivity.
  destruct (existsb (fun cell => exists_ (snd cell)) row); reflexivity.
Qed.

(** X22.  The report says "No profiles found for this variant." once for
    each variant without a positive result, and for no other variant. *)
Theorem report_counts_empty_variants (base : str)
  (t : dict str (dict str UsernameCheckResult)) :
  length (filter (str_eqb no_profiles_line) (print_results title base t))
  = length (filter (fun row =>
                      negb (existsb (fun cell => exists_ (snd cell))
                                    (snd row))) t).
Proof.
  rewrite print_results_closed, !filter_app, !length_app.
  replace (filter (str_eqb no_profiles_line)
             [LF ++ py "======================================";
              py "     OSINT RESULTS FOR BASE: " ++ base;
              py "======================================" ++ LF])
    with (@nil str) by reflexivity.
  replace (filter (str_eqb no_profiles_line) [py "Scan complete." ++ LF])
    with (@nil str) by reflexivity.
  cbn [length Nat.add]. rewrite Nat.add_0_r.
  apply blocks_count_empty_variants.
Qed.

Lemma cell_line_found (cell : str * UsernameCheckResult) :
  startswith (cell_line title cell) GREEN = exists_ (snd cell).
Proof.
  unfold cell_line. destruct (exists_ (snd cell)); reflexivity.
Qed.

Lemma row_found_lines (row : dict str UsernameCheckResult) :
  filter (fun line => startswith line GREEN) (map (cell_line title) row)
  = map (fun cell =>
           found_line (title (replace_underscore (fst cell))) (url (snd cell)))
        (filter (fun cell => exists_ (snd cell)) row).
Proof.
  induction row as [|cell row IH]; [reflexivity|].
  cbn [map filter]. rewrite cell_line_found.
  destruct (exists_ (snd cell)) eqn:E; cbn [map]; rewrite IH;
    [| reflexivity].
  unfold cell_line. rewrite E. reflexivity.
Qed.

Lemma blocks_found_lines (t : dict str (dict str UsernameCheckResult)) :
  filter (fun line => startswith line GREEN) (flat_map (row_block title) t)
  = map (fun cell =>
           found_line (title (replace_underscore (fst cell))) (url (snd cell)))
        (filter (fun cell => exists_ (snd cell)) (flat_map snd t)).
Proof.
  induction t as [|[v row] t IH]; [reflexivity|].
  cbn [flat_map snd]. rewrite !filter_app, map_app, IH. f_equal.
  unfold row_block. cbn [fst snd]. rewrite !filter_app.
  rewrite row_found_lines.
  replace (filter (fun line => startswith line GREEN)
             [py "--- Username variant: " ++ v ++ py " ---"])
    with (@nil str) by reflexivity.
  replace (filter (fun line => startswith line GREEN) [py ""])
    with (@nil str) by reflexivity.
  replace (filter (fun line => startswith line GREEN)
             (if existsb (fun cell => exists_ (snd cell)) row
              then [] else [no_profiles_line]))
    with (@nil str) by (destruct (existsb _ row); reflexivity).
  rewrite !app_nil_r. reflexivity.
Qed.

(** X23.  The green "FOUND" lines of the report are, in table order, the
    lines of the positive results, each with the url of its result;
    negative results and everything else print no such line. *)
Theorem report_lists_positive_results (base : str)
  (t : dict str (dict str UsernameCheckResult)) :
  filter (fun line => startswith line GREEN) (print_results title base t)
  = map (fun cell =>
           found_line (title (replace_underscore (fst cell))) (url (snd cell)))
        (filter (fun cell => exists_ (snd cell)) (flat_map snd t)).
Proof.
  rewrite print_results_closed, !filter_app.
  replace (filter (fun line => startswith line GREEN)
             [LF ++ py "======================================";
              py "     OSINT RESULTS FOR BASE: " ++ base;
              py "======================================" ++ LF])
    with (@nil str) by reflexivity.
  replace (filter (fun line => startswith line GREEN)
             [py "Scan complete." ++ LF])
    with (@nil str) by reflexivity.
  rewrite app_nil_r. apply blocks_found_lines.
Qed.

Lemma cell_line_shown (c1 c2 : str * UsernameCheckResult) :
  shown_cell c1 = shown_cell c2 -> cell_line title c1 = cell_line title c2.
Proof.
  unfold shown_cell, cell_line. intros H. inversion H as [[Hk He Hu]].
  rewrite Hk, <- He in *. destruct (exists_ (snd c1)); [rewrite Hu|];
    reflexivity.
Qed.

Lemma row_block_shown (r1 r2 : str * dict str UsernameCheckResult) :
  fst r1 = fst r2 ->
  map shown_cell (snd r1) = map shown_cell (snd r2) ->
  row_block title r1 = row_block title r2.
Proof.
  destruct r1 as [v1 row1], r2 as [v2 row2]. cbn [fst snd].
  intros -> Hcells. unfold row_block. cbn [fst snd].
  assert (Hlines : map (cell_line title) row1 = map (cell_line title) row2
                   /\ existsb (fun cell => exists_ (snd cell)) row1
                      = existsb (fun cell => exists_ (snd cell)) row2).
  { revert row2 Hcells. induction row1 as [|c1 row1 IH];
      intros [|c2 row2] Hcells; try discriminate; [split; reflexivity|].
    cbn [map] in Hcells.
    assert (Hc : shown_cell c1 = shown_cell c2) by congruence.
    assert (Hrest : map shown_cell row1 = map shown_cell row2) by congruence.
    destruct (IH _ Hrest) as [Hl He]. cbn [map existsb].
    rewrite (cell_line_shown Hc), Hl, He.
    assert (Hex : exists_ (snd c1) = exists_ (snd c2))
      by (unfold shown_cell in Hc; congruence).
    rewrite Hex. split; reflexivity. }
  destruct Hlines as [-> ->]. reflexivity.
Qed.

(** X24.  The report shows of a result only its platform, whether it is
    positive, and the url of a positive one: two tables that agree on
    these print the same report.  In particular status and note are
    never shown, and [NotExists] and [Uncertain] print alike. *)
Theorem report_shows_only_answers (base : str)
  (t1 t2 : dict str (dict str UsernameCheckResult)) :
  shown t1 = shown t2 ->
  print_results title base t1 = print_results title base t2.
Proof.
  intros Hshown. rewrite !print_results_closed. do 2 f_equal.
  revert t2 Hshown. induction t1 as [|r1 t1 IH]; intros [|r2 t2] Hshown;
    try discriminate; [reflexivity|].
  unfold shown in Hshown. cbn [map] in Hshown.
  injection Hshown as Hv Hcells Hrest.
  cbn [flat_map]. rewrite (row_block_shown _ _ Hv Hcells).
  f_equal. apply IH. exact Hrest.
Qed.

End ReportFacts.

(* ================================================================== *)
(** * The closing prompt of [run_scan] *)
(* ================================================================== *)

Section PromptFacts.

Variable strip : str -> str.
Variable lower : str -> str.

Lemma not_accepted (again : str) :
  str_mem again accepted = false ->
  str_mem again [py "y"; py "yes"] = false /\
  str_mem again [py "n"; py "no"; py ""] = false.
Proof.
  unfold accepted, str_mem. cbn [existsb]. intros H.
  repeat (apply orb_false_iff in H; destruct H as [? H]).
  split; repeat (apply orb_false_iff; split); assumption.
Qed.

(** X25.  The prompt is decided by the first accepted answer: after any
    number of lines that are not accepted, each answered by "Please
    answer with 'y' or 'n'." and a new prompt, an accepted line decides
    -- [y] or [yes] for another scan, [n], [no] or a blank line against
    -- and the lines after it are left unread. *)
Theorem prompt_decided_by_first_accepted_answer
  (rejected : list str) (answer : str) (rest out : list str) :
  Forall (fun line => str_mem (lower (strip line)) accepted = false)
         rejected ->
  str_mem (lower (strip answer)) accepted = true ->
  ask_again strip lower (rejected ++ answer :: rest) out
  = (Some (str_mem (lower (strip answer)) [py "y"; py "yes"]),
     out ++ flat_map (fun _ => [again_prompt; please_answer]) rejected
         ++ [again_prompt],
     rest).
Proof.
  intros Hrej Hans. revert out.
  induction Hrej as [|line rejected Hline _ IH]; intros out.
  - cbn [app flat_map ask_again].
    destruct (str_mem (lower (strip answer)) [py "y"; py "yes"]) eqn:Hyes;
      [reflexivity|].
    destruct (str_mem (lower (strip answer)) [py "n"; py "no"; py ""])
      eqn:Hno; [reflexivity|].
    exfalso. revert Hans Hyes Hno. unfold accepted, str_mem.
    cbn [existsb]. intros Hans Hyes Hno.
    repeat (apply orb_false_iff in Hyes; destruct Hyes as [? Hyes]).
    repeat (apply orb_false_iff in Hno; destruct Hno as [? Hno]).
    repeat match goal with
           | H : str_eqb _ _ = false |- _ => rewrite H in Hans
           end.
    discriminate Hans.
  - cbn [app flat_map ask_again].
    destruct (not_accepted _ Hline) as [-> ->].
    rewrite IH, <- !app_assoc. reflexivity.
Qed.

(** X26.  When the input ends before any accepted answer, the prompt
    comes to no decision ([input] raises [EOFError]): every line was
    read, each was answered by the reminder, and a last prompt was
    written. *)
Theorem prompt_undecided_at_end_of_input (rejected out : list str) :
  Forall (fun line => str_mem (lower (strip line)) accepted = false)
         rejected ->
  ask_again strip lower rejected out
  = (None,
     out ++ flat_map (fun _ => [again_prompt; please_answer]) rejected
         ++ [again_prompt],
     []).
Proof.
  intros Hrej. revert out.
  induction Hrej as [|line rejected Hline _ IH]; intros out.
  - reflexivity.
  - cbn [flat_map ask_again].
    destruct (not_accepted _ Hline) as [-> ->].
    rewrite IH, <- !app_assoc. reflexivity.
Qed.

End PromptFacts.

(* ================================================================== *)
(** * The further properties on recorded runs *)
(* ================================================================== *)



(** Reddit: the "nobody" page is [NotExists] although its status is
    200. *)
Lemma negative_marker_wins_witness :
  check_profile ascii_lower (replay (inl reddit_nobody_response))
    (py "reddit") (py "ghost") (py "https://www.reddit.com/user/ghost")
    8%float tt
  = (Return (false, Some 200%Z, None), tt).
Proof.
  apply (@negative_marker_wins ascii_lower unit
           (replay (inl reddit_nobody_response))
           (py "reddit") (py "ghost") (py "https://www.reddit.com/user/ghost")
           8%float tt tt reddit_nobody_response); reflexivity.
Defined.



(** A timed-out probe: no status, the error text as note. *)
Lemma answer_status_is_response_status_witness :
  false = false /\ @None Z = None /\
  Some (py "Read timed out.") = Some (py "Read timed out.").
Proof.
  apply (@answer_status_is_response_status ascii_lower unit
           (replay (inr (py "Read timed out.")))
           (py "youtube") (py "ghost") (py "https://www.youtube.com/@ghost")
           8%float tt tt false None (Some (py "Read timed out."))).
  reflexivity.
Defined.

(** Instagram: an empty user object is [NotExists]. *)
Lemma instagram_answer_is_user_truth_value_witness :
  check_profile ascii_lower (replay (inl empty_user_response))
    (py "instagram") (py "ghost") (py "https://www.instagram.com/ghost/")
    8%float tt
  = (Return (false, Some 200%Z, None), tt).
Proof.
  apply (@instagram_answer_is_user_truth_value ascii_lower unit
           (replay (inl empty_user_response))
           (py "ghost") (py "https://www.instagram.com/ghost/")
           8%float tt tt empty_user_response
           (JDict [(py "data", JDict [(py "user", JDict [])])]));
    reflexivity.
Defined.


(** A scan with every connection refused. *)
Lemma dead_network_scan_witness :
  exists table w',
    run_scan_table ascii_lower (replay (inr (py "Connection refused")))
      (py "abc") tt
    = (Return (Some table), w') /\
    Forall (fun r => exists_ r = false /\ http_status r = None /\
                     exists msg, error r = Some msg)
           (table_results table).
Proof.
  apply (@dead_network_scan ascii_lower unit
           (replay (inr (py "Connection refused"))) (py "abc") tt).
  - intros req w0. exists (py "Connection refused"). reflexivity.
  - vm_compute. discriminate.
Defined.

(** A scan whose first probe brings [{"data": null}]. *)
Lemma scan_aborts_on_misshapen_json_witness :
  run_scan_table ascii_lower (replay (inl null_data_response))
    (py "john.doe") tt
  = (Raise AttributeError, tt).
Proof.
  apply (@scan_aborts_on_misshapen_json ascii_lower unit
           (replay (inl null_data_response)) (py "john.doe") tt tt
           null_data_response (JDict [(py "data", JNone)]));
    try reflexivity. vm_compute. discriminate.
Defined.

(** The GitHub result of a scan of ["abc"] in the scripted world. *)
Lemma stored_result_is_the_answer_witness :
  exists table served r,
    run_scan_table ascii_lower scripted (py "abc") 0%nat
      = (Return (Some table), served) /\
    table_get table (py "abc") (py "github") = Some r /\
    exists template,
      In (py "github", template) SERVICES /\
      service r = py "github" /\ username r = py "abc" /\
      url r = format_username template (py "abc") /\
      exists w0 w1,
        check_profile ascii_lower scripted (py "github") (py "abc") (url r)
          8%float w0
        = (Return (exists_ r, http_status r, error r), w1).
Proof.
  eexists. eexists. eexists.
  split; [vm_compute; reflexivity|].
  split; [vm_compute; reflexivity|].
  eapply (@stored_result_is_the_answer ascii_lower nat scripted
            (py "abc") 0%nat);
    vm_compute; reflexivity.
Defined.

(** A 404 and a time-out print the same report. *)
Lemma report_shows_only_answers_witness :
  print_results ascii_title (py "abc") quiet_table
  = print_results ascii_title (py "abc") noisy_table.
Proof.
  apply report_shows_only_answers. reflexivity.
Defined.

(** Two rejected lines, then [" Yes "], then a line left unread. *)
Lemma prompt_decided_by_first_accepted_answer_witness :
  ask_again ascii_strip ascii_lower
    ([py "maybe"; py "yes please"] ++ py " Yes " :: [py "n"]) []
  = (Some true,
     [] ++ flat_map (fun _ => [again_prompt; please_answer])
                    [py "maybe"; py "yes please"]
        ++ [again_prompt],
     [py "n"]).
Proof.
  apply (@prompt_decided_by_first_accepted_answer ascii_strip ascii_lower
           [py "maybe"; py "yes please"] (py " Yes ") [py "n"] []).
  - repeat constructor.
  - reflexivity.
Defined.

(** One rejected line, then the end of the input. *)
Lemma prompt_undecided_at_end_of_input_witness :
  ask_again ascii_strip ascii_lower [py "maybe"] []
  = (None,
     [] ++ flat_map (fun _ => [again_prompt; please_answer]) [py "maybe"]
        ++ [again_prompt],
     []).
Proof.
  apply prompt_undecided_at_end_of_input. repeat constructor.
Defined.
